(** * Flight booking application (app.py): model and verified properties

    A shallow embedding of the Flask application in [app.py].  The three
    SQLAlchemy models become records, the SQLite tables become lists kept in
    rowid order, and every view function becomes a computation in a small
    state-and-exception monad over the persistent state of the application
    (the committed tables, the signed cookie with the login and the flashed
    messages, and the state of the random generator that salts passwords)
    together with the unit of work of [db.session]. *)

From Stdlib Require Import ZArith List String Ascii Bool Lia Floats.
Import ListNotations.

Local Open Scope string_scope.
Local Open Scope Z_scope.

(** ** [datetime]: the part of Python's datetime module the program uses *)

Module DateTime.

(** A [datetime(year, month, day, hour, minute, second)].  Every timestamp
    the program stores is built with these six arguments (the seeded
    flights) or parsed from the admin form, whose format has a resolution
    of one second, so the microsecond field is 0 throughout and is left
    out. *)
Record datetime : Type := mk {
  year : Z; month : Z; day : Z;
  hour : Z; minute : Z; second : Z
}.

Definition is_leap (y : Z) : bool :=
  (y mod 4 =? 0) && (negb (y mod 100 =? 0) || (y mod 400 =? 0)).

(** Number of days before January 1st of year [y]. *)
Definition days_before_year (y : Z) : Z :=
  let p := y - 1 in p * 365 + p / 4 - p / 100 + p / 400.

Definition DAYS_BEFORE_MONTH : list Z :=
  [0; 31; 59; 90; 120; 151; 181; 212; 243; 273; 304; 334].

(** Number of days in year [y] before the first day of month [m]. *)
Definition days_before_month (y m : Z) : Z :=
  nth (Z.to_nat (m - 1)) DAYS_BEFORE_MONTH 0
  + (if (2 <? m) && is_leap y then 1 else 0).

Definition toordinal (d : datetime) : Z :=
  days_before_year (year d) + days_before_month (year d) (month d) + day d.

Definition seconds_of_day (d : datetime) : Z :=
  second d + minute d * 60 + hour d * 3600.

(** [(a - b).total_seconds()].  The difference is a timedelta of
    [toordinal a - toordinal b] days and the difference of the seconds of
    the day; [total_seconds] is its length in seconds.  Python returns it
    as a float; with whole seconds and years up to 9999 it is an integer
    below 2^53, which a double holds exactly, so it is kept as an
    integer here. *)
Definition total_seconds_sub (a b : datetime) : Z :=
  (toordinal a - toordinal b) * 86400 + (seconds_of_day a - seconds_of_day b).

End DateTime.

Import DateTime.

(** ** The three models *)

Module User.
Record t : Type := mk {
  id : Z;
  username : string;
  password_hash : string
}.
End User.

Module Flight.
Record t : Type := mk {
  id : Z;
  departure_city : string;
  arrival_city : string;
  image : string;
  description : string;
  route : string;
  departure_datetime : datetime;
  arrival_datetime : datetime;
  price : float
}.
End Flight.

Module Booking.
Record t : Type := mk {
  id : Z;
  flight_id : Z;
  user_id : Z;
  full_name : string;
  email : string;
  phone : string
}.
End Booking.

(** The committed content of [flights.db], each table in rowid order. *)
Record Database : Type := mkDatabase {
  users : list User.t;
  flights : list Flight.t;
  bookings : list Booking.t
}.

(** An object handed to [db.session.add]: a model instance whose primary key
    is still unset. *)
Inductive Pending : Type :=
| NewUser (username password_hash : string)
| NewFlight (departure_city arrival_city image description route : string)
            (departure_datetime arrival_datetime : datetime) (price : float)
| NewBooking (flight_id user_id : Z) (full_name email phone : string).

(** SQLite gives a row of an [INTEGER PRIMARY KEY] table the largest rowid
    in use plus one, and 1 in an empty table. *)
Definition next_id (ids : list Z) : Z := fold_right Z.max 0 ids + 1.

Definition insert_row (d : Database) (p : Pending) : Database :=
  match p with
  | NewUser u h =>
      mkDatabase (users d ++ [User.mk (next_id (map User.id (users d))) u h])
                 (flights d) (bookings d)
  | NewFlight dc ac im de ro dd ad pr =>
      mkDatabase (users d)
                 (flights d ++
                    [Flight.mk (next_id (map Flight.id (flights d)))
                               dc ac im de ro dd ad pr])
                 (bookings d)
  | NewBooking fid uid fn em ph =>
      mkDatabase (users d) (flights d)
                 (bookings d ++
                    [Booking.mk (next_id (map Booking.id (bookings d)))
                                fid uid fn em ph])
  end.

(** ** Requests, responses and the state of the application *)

Inductive Method : Type := GET | POST.

(** [request.form] is a MultiDict: an ordered list of pairs, where indexing
    returns the first value stored under the key. *)
Record Request : Type := mkRequest {
  method : Method;
  form : list (string * string)
}.

(** What [render_template] receives besides the name of the template. *)
Inductive Context : Type :=
| NoContext
| CtxFlights (flights : list Flight.t)
| CtxFlightDetails (flight : Flight.t) (duration_hours duration_minutes : Z)
| CtxBookings (bookings : list Booking.t).

Inductive Response : Type :=
| Redirect (endpoint : string) (flight_id : option Z)
| RenderTemplate (name : string) (ctx : Context)
| ErrorPage (code : Z).

(** Exceptions that leave a view function. *)
Inductive Exn : Type :=
| NotFound          (* get_or_404 on a missing row: 404 *)
| BadRequestKeyError (* request.form[k] on a missing key: 400 *)
| AttributeError    (* an attribute the object does not have: 500 *)
| OverflowError.    (* an integer SQLite cannot take as a parameter: 500 *)

Definition status_code (e : Exn) : Z :=
  match e with
  | NotFound => 404
  | BadRequestKeyError => 400
  | AttributeError => 500
  | OverflowError => 500
  end.

(** The state that outlives a request. *)
Record World : Type := mkWorld {
  db : Database;
  login_session : option Z;   (* the user id kept in the session cookie *)
  flashes : list string;      (* flashed messages, oldest first *)
  rng : nat                   (* state of the generator that draws salts *)
}.

(** The state a view function works on: the world and the objects added to
    [db.session] and not yet committed. *)
Record St : Type := mkSt {
  world : World;
  session_new : list Pending
}.

Inductive Outcome (A : Type) : Type :=
| Ok (a : A)
| Raise (e : Exn).
Arguments Ok {A} a.
Arguments Raise {A} e.

Definition M (A : Type) : Type := St -> Outcome A * St.

Definition ret {A} (a : A) : M A := fun s => (Ok a, s).

Definition bind {A B} (m : M A) (k : A -> M B) : M B :=
  fun s =>
    match m s with
    | (Ok a, s') => k a s'
    | (Raise e, s') => (Raise e, s')
    end.

Definition raise {A} (e : Exn) : M A := fun s => (Raise e, s).

Definition gets {A} (f : World -> A) : M A := fun s => (Ok (f (world s)), s).

Definition modify_world (f : World -> World) : M unit :=
  fun s => (Ok tt, mkSt (f (world s)) (session_new s)).

Declare Scope app_scope.
Delimit Scope app_scope with app.
Notation "x <- m ;; k" := (bind m (fun x => k))
  (at level 61, m at next level, right associativity) : app_scope.
Notation "m ;;; k" := (bind m (fun _ => k))
  (at level 61, right associativity) : app_scope.
Local Open Scope app_scope.

(** [flash(message)] *)
Definition flash (msg : string) : M unit :=
  modify_world (fun w =>
    mkWorld (db w) (login_session w) (flashes w ++ [msg]) (rng w)).

(** [db.session.add(obj)] *)
Definition session_add (p : Pending) : M unit :=
  fun s => (Ok tt, mkSt (world s) (session_new s ++ [p])).

(** [db.session.add_all(objs)] *)
Definition session_add_all (ps : list Pending) : M unit :=
  fun s => (Ok tt, mkSt (world s) (session_new s ++ ps)).

(** [db.session.commit()]: the pending objects are inserted, in the order
    they were added, in one transaction. *)
Definition session_commit : M unit :=
  fun s =>
    let w := world s in
    (Ok tt,
     mkSt (mkWorld (fold_left insert_row (session_new s) (db w))
                   (login_session w) (flashes w) (rng w))
          []).

(** [request.form[key]] *)
Fixpoint form_get (f : list (string * string)) (key : string) : option string :=
  match f with
  | [] => None
  | (k, v) :: rest => if String.eqb k key then Some v else form_get rest key
  end.

Definition request_form (r : Request) (key : string) : M string :=
  match form_get (form r) key with
  | Some v => ret v
  | None => raise BadRequestKeyError
  end.

(** ** Queries *)

(** [User.query.filter_by(username=username).first()].  SQLite compares
    text columns byte by byte, so the match is exact. *)
Definition user_by_username (d : Database) (name : string) : option User.t :=
  find (fun u => String.eqb (User.username u) name) (users d).

(** [User.query.get(user_id)] *)
Definition user_get (d : Database) (uid : Z) : option User.t :=
  find (fun u => User.id u =? uid) (users d).

(** [Flight.query.get(flight_id)] *)
Definition flight_get (d : Database) (fid : Z) : option Flight.t :=
  find (fun f => Flight.id f =? fid) (flights d).

(** SQLite integers are signed and 64 bits wide.  The driver refuses to
    bind a Python integer outside that range as a query parameter and raises
    [OverflowError]; nothing catches it, and the answer is 500. *)
Definition SQLITE_MIN : Z := - 2 ^ 63.
Definition SQLITE_MAX : Z := 2 ^ 63 - 1.

Definition fits_sqlite_integer (n : Z) : bool :=
  (SQLITE_MIN <=? n) && (n <=? SQLITE_MAX).

(** [Flight.query.get_or_404(flight_id)].  For an id outside the range of
    SQLite integers the query cannot be sent and the error is the driver's
    instead of 404.  A stored id is a SQLite integer, so no row of a real
    table carries such an id, and there the order of the two tests makes no
    difference. *)
Definition flight_get_or_404 (fid : Z) : M Flight.t :=
  d <- gets db ;;
  match flight_get d fid with
  | Some f => ret f
  | None => if fits_sqlite_integer fid then raise NotFound
            else raise OverflowError
  end.

(** [Flight.query.first()] *)
Definition flight_first (d : Database) : option Flight.t := hd_error (flights d).

(** [Booking.query.filter_by(user_id=uid).all()] *)
Definition bookings_of (d : Database) (uid : Z) : list Booking.t :=
  filter (fun b => Booking.user_id b =? uid) (bookings d).

(** ** Flask-Login *)

(** [load_user], the [user_loader] callback. *)
Definition load_user (d : Database) (uid : Z) : option User.t := user_get d uid.

(** [current_user]: the user the session cookie names, [None] standing for
    the anonymous user. *)
Definition current_user (w : World) : option User.t :=
  match login_session w with
  | Some uid => load_user (db w) uid
  | None => None
  end.

(** [current_user.is_authenticated] *)
Definition is_authenticated (u : option User.t) : bool :=
  match u with Some _ => true | None => false end.

(** [login_user(user)] *)
Definition login_user (u : User.t) : M unit :=
  modify_world (fun w =>
    mkWorld (db w) (Some (User.id u)) (flashes w) (rng w)).

(** [logout_user()] *)
Definition logout_user : M unit :=
  modify_world (fun w => mkWorld (db w) None (flashes w) (rng w)).

Definition LOGIN_MESSAGE : string := "Please log in to access this page.".

(** [login_manager.unauthorized()] with [login_view = 'login']. *)
Definition unauthorized : M Response :=
  flash LOGIN_MESSAGE ;;; ret (Redirect "login" None).

(** The [@login_required] decorator. *)
Definition login_required (view : M Response) : M Response :=
  u <- gets current_user ;;
  if negb (is_authenticated u) then unauthorized else view.

(** ** File names *)

Definition ALLOWED_EXTENSIONS : list string := ["png"; "jpg"; "jpeg"].

Definition lower_ascii (c : ascii) : ascii :=
  let n := nat_of_ascii c in
  if (65 <=? n)%nat && (n <=? 90)%nat then ascii_of_nat (n + 32) else c.

(** [s.lower()].  Strings are sequences of bytes here; no character outside
    ASCII lowers to an ASCII letter of the allowed extensions, so membership
    of the result in [ALLOWED_EXTENSIONS] is the same. *)
Fixpoint lower (s : string) : string :=
  match s with
  | EmptyString => EmptyString
  | String c rest => String (lower_ascii c) (lower rest)
  end.

(** ['.' in s] *)
Fixpoint contains_dot (s : string) : bool :=
  match s with
  | EmptyString => false
  | String c rest => Ascii.eqb c "." || contains_dot rest
  end.

(** The two halves of [s] around its last dot, if it has one. *)
Fixpoint split_last_dot (s : string) : option (string * string) :=
  match s with
  | EmptyString => None
  | String c rest =>
      match split_last_dot rest with
      | Some (a, b) => Some (String c a, b)
      | None => if Ascii.eqb c "." then Some (EmptyString, rest) else None
      end
  end.

(** [s.rsplit('.', 1)] *)
Definition rsplit_dot (s : string) : list string :=
  match split_last_dot s with
  | Some (a, b) => [a; b]
  | None => [s]
  end.

(** [x in ALLOWED_EXTENSIONS] *)
Definition in_allowed (x : string) : bool :=
  existsb (String.eqb x) ALLOWED_EXTENSIONS.

(** [allowed_file(filename)].  The index [1] is only evaluated when the name
    has a dot, where the split has two parts. *)
Definition allowed_file (filename : string) : bool :=
  contains_dot filename &&
  match nth_error (rsplit_dot filename) 1 with
  | Some ext => in_allowed (lower ext)
  | None => false
  end.

(** Python's [not s] on a string. *)
Definition str_is_empty (s : string) : bool :=
  match s with
  | EmptyString => true
  | String _ _ => false
  end.

(** [obj.username] and [obj.id] on [current_user]: the anonymous user has
    neither attribute. *)
Definition attr_username (u : option User.t) : M string :=
  match u with
  | Some usr => ret (User.username usr)
  | None => raise AttributeError
  end.

Definition attr_id (u : option User.t) : M Z :=
  match u with
  | Some usr => ret (User.id usr)
  | None => raise AttributeError
  end.

(** ** The seeded flights *)

Definition default_flights : list Pending :=
  [ NewFlight "Москва" "Санкт-Петербург" "static/uploads/moscow_spb.jpg"
              "Прямой рейс из Москвы в Санкт-Петербург." "MOW-SPB"
              (DateTime.mk 2024 5 10 10 0 0) (DateTime.mk 2024 5 10 11 30 0)
              3500%float;
    NewFlight "Москва" "Екатеринбург" "static/uploads/moscow_ekb.jpg"
              "Прямой рейс из Москвы в Екатеринбург." "MOW-EKB"
              (DateTime.mk 2024 5 12 14 0 0) (DateTime.mk 2024 5 12 17 30 0)
              4200%float ].

(** [add_default_flights()] *)
Definition add_default_flights : M unit :=
  d <- gets db ;;
  match flight_first d with
  | None => session_add_all default_flights ;;; session_commit
  | Some _ => ret tt
  end.

(** ** View functions *)

(** One request: the view runs on a fresh unit of work, what it did not
    commit is dropped when the request ends, and an exception becomes the
    error page of its status code. *)
Definition serve (view : M Response) (w : World) : Response * World :=
  match view (mkSt w []) with
  | (Ok r, s) => (r, world s)
  | (Raise e, s) => (ErrorPage (status_code e), world s)
  end.

(** [index()], route [/] *)
Definition index : M Response :=
  add_default_flights ;;;
  d <- gets db ;;
  ret (RenderTemplate "index.html" (CtxFlights (flights d))).

(** [about()], route [/about] *)
Definition about : M Response :=
  ret (RenderTemplate "about.html" NoContext).

(** [logout()], route [/logout] *)
Definition logout : M Response :=
  login_required (logout_user ;;; ret (Redirect "index" None)).

(** [flight_details(flight_id)], route [/flights/<int:flight_id>].  [//] and
    [%] round towards minus infinity, as [/] and [mod] on [Z] do. *)
Definition flight_details (flight_id : Z) : M Response :=
  flight <- flight_get_or_404 flight_id ;;
  let duration :=
    total_seconds_sub (Flight.arrival_datetime flight)
                      (Flight.departure_datetime flight) in
  let duration_hours := duration / 3600 in
  let duration_minutes := (duration mod 3600) / 60 in
  ret (RenderTemplate "flight_details.html"
         (CtxFlightDetails flight duration_hours duration_minutes)).

Definition MSG_FILL_ALL : string := "Пожалуйста, заполните все поля.".
Definition MSG_BOOKED : string := "Рейс успешно забронирован!".

(** [book_flight(flight_id)], route [/flights/<int:flight_id>/book] *)
Definition book_flight (r : Request) (flight_id : Z) : M Response :=
  login_required (
    flight <- flight_get_or_404 flight_id ;;
    full_name <- request_form r "full_name" ;;
    email <- request_form r "email" ;;
    phone <- request_form r "phone" ;;
    if str_is_empty full_name || str_is_empty email || str_is_empty phone
    then
      flash MSG_FILL_ALL ;;;
      ret (Redirect "flight_details" (Some flight_id))
    else
      u <- gets current_user ;;
      uid <- attr_id u ;;
      session_add (NewBooking (Flight.id flight) uid full_name email phone) ;;;
      session_commit ;;;
      flash MSG_BOOKED ;;;
      ret (Redirect "bookings" None)).

(** [bookings()], route [/bookings] *)
Definition bookings_view : M Response :=
  login_required (
    u <- gets current_user ;;
    uid <- attr_id u ;;
    d <- gets db ;;
    ret (RenderTemplate "bookings.html" (CtxBookings (bookings_of d uid)))).

(** ** The admin panel *)

Module AdminIndexView.

(** Flask-Admin's own index page, which [MyAdminIndexView.index] defers
    to. *)
Definition index : M Response :=
  ret (RenderTemplate "admin/index.html" NoContext).

End AdminIndexView.

Module MyAdminIndexView.

(** [MyAdminIndexView.index]; [or] evaluates its right operand only when
    the left one is false. *)
Definition index : M Response :=
  u <- gets current_user ;;
  denied <- (if negb (is_authenticated u)
             then ret true
             else name <- attr_username u ;;
                  ret (negb (String.eqb name "admin"))) ;;
  if denied then ret (Redirect "login" None) else AdminIndexView.index.

End MyAdminIndexView.


Module MyModelView.

(** [MyModelView.is_accessible]; [and] evaluates its right operand only
    when the left one is true. *)
Definition is_accessible : M bool :=
  u <- gets current_user ;;
  if is_authenticated u
  then name <- attr_username u ;; ret (String.eqb name "admin")
  else ret false.

(** [MyModelView.inaccessible_callback] *)
Definition inaccessible_callback : M Response :=
  ret (Redirect "login" None).

(** How Flask-Admin runs an exposed view (list, create, edit, delete) of a
    [ModelView]: it asks [is_accessible] first and answers with
    [inaccessible_callback] when the answer is no; only otherwise does the
    view itself, [action], run. *)
Definition exposed (action : M Response) : M Response :=
  ok <- is_accessible ;;
  if ok then action else inaccessible_callback.



End MyModelView.



(** ** Registration and login *)

Definition MSG_TAKEN : string := "Имя пользователя уже занято.".
Definition MSG_REGISTERED : string :=
  "Регистрация прошла успешно. Теперь вы можете войти.".
Definition MSG_BAD_LOGIN : string := "Неверное имя пользователя или пароль.".

Section Auth.

(** Werkzeug's password hashing.  [generate_password_hash] draws a random
    salt; the first argument is the state of the generator it draws from. *)
Variable generate_password_hash : nat -> string -> string.
Variable check_password_hash : string -> string -> bool.

(** [User.set_password]: the hash the new object carries. *)
Definition set_password (password : string) : M string :=
  n <- gets rng ;;
  modify_world (fun w =>
    mkWorld (db w) (login_session w) (flashes w) (S (rng w))) ;;;
  ret (generate_password_hash n password).

(** [User.check_password] *)
Definition check_password (u : User.t) (password : string) : bool :=
  check_password_hash (User.password_hash u) password.

(** [register()], route [/register] *)
Definition register (r : Request) : M Response :=
  match method r with
  | POST =>
      username <- request_form r "username" ;;
      password <- request_form r "password" ;;
      d <- gets db ;;
      match user_by_username d username with
      | Some _ =>
          flash MSG_TAKEN ;;;
          ret (Redirect "register" None)
      | None =>
          h <- set_password password ;;
          session_add (NewUser username h) ;;;
          session_commit ;;;
          flash MSG_REGISTERED ;;;
          ret (Redirect "login" None)
      end
  | GET => ret (RenderTemplate "register.html" NoContext)
  end.

(** [login()], route [/login] *)
Definition login (r : Request) : M Response :=
  match method r with
  | POST =>
      username <- request_form r "username" ;;
      password <- request_form r "password" ;;
      d <- gets db ;;
      match user_by_username d username with
      | Some user =>
          if check_password user password
          then login_user user ;;; ret (Redirect "index" None)
          else flash MSG_BAD_LOGIN ;;; ret (Redirect "login" None)
      | None =>
          flash MSG_BAD_LOGIN ;;; ret (Redirect "login" None)
      end
  | GET => ret (RenderTemplate "login.html" NoContext)
  end.

End Auth.

(** A stand-in for Werkzeug's hashing, to run the model on examples. *)
Definition demo_generate_password_hash (n : nat) (password : string) : string :=
  "demo$" ++ String (ascii_of_nat (48 + n mod 10)) "$" ++ password.

Definition demo_check_password_hash (pwhash password : string) : bool :=
  match pwhash with
  | String _ (String _ (String _ (String _ (String _ (String _ (String _ p)))))) =>
      String.eqb p password
  | _ => false
  end.

Definition empty_world : World := mkWorld (mkDatabase [] [] []) None [] 0.

(** ** What the properties are stated with *)

(** The world a successful registration leaves. *)
Definition world_after_register (w : World) (username pwhash : string) : World :=
  mkWorld
    (mkDatabase
       (users (db w) ++
          [User.mk (next_id (map User.id (users (db w)))) username pwhash])
       (flights (db w)) (bookings (db w)))
    (login_session w) (flashes w ++ [MSG_REGISTERED]) (S (rng w)).

(** The world after a message was flashed and nothing else happened. *)
Definition world_flashed (w : World) (msg : string) : World :=
  mkWorld (db w) (login_session w) (flashes w ++ [msg]) (rng w).

(** The row a successful booking inserts. *)
Definition new_booking (w : World) (flight_id user_id : Z)
    (full_name email phone : string) : Booking.t :=
  Booking.mk (next_id (map Booking.id (bookings (db w))))
             flight_id user_id full_name email phone.

Definition world_after_booking (w : World) (b : Booking.t) : World :=
  mkWorld
    (mkDatabase (users (db w)) (flights (db w)) (bookings (db w) ++ [b]))
    (login_session w) (flashes w ++ [MSG_BOOKED]) (rng w).


(** The current user is logged in under the name [admin]. *)
Definition IsAdmin (w : World) : Prop :=
  exists u, current_user w = Some u /\ User.username u = "admin".

(** The two seeded flights as the empty table stores them. *)
Definition seeded_flight_1 : Flight.t :=
  Flight.mk 1 "Москва" "Санкт-Петербург" "static/uploads/moscow_spb.jpg"
            "Прямой рейс из Москвы в Санкт-Петербург." "MOW-SPB"
            (DateTime.mk 2024 5 10 10 0 0) (DateTime.mk 2024 5 10 11 30 0)
            3500%float.

Definition seeded_flight_2 : Flight.t :=
  Flight.mk 2 "Москва" "Екатеринбург" "static/uploads/moscow_ekb.jpg"
            "Прямой рейс из Москвы в Екатеринбург." "MOW-EKB"
            (DateTime.mk 2024 5 12 14 0 0) (DateTime.mk 2024 5 12 17 30 0)
            4200%float.

Definition seeded_flights : list Flight.t := [seeded_flight_1; seeded_flight_2].

(** Python's [str.strip()] on the ASCII whitespace characters. *)
Definition is_space (c : ascii) : bool :=
  let n := nat_of_ascii c in
  ((9 <=? n)%nat && (n <=? 13)%nat) || (n =? 32)%nat.

Fixpoint lstrip (s : string) : string :=
  match s with
  | EmptyString => EmptyString
  | String c rest => if is_space c then lstrip rest else s
  end.

Fixpoint rstrip (s : string) : string :=
  match s with
  | EmptyString => EmptyString
  | String c rest =>
      match rstrip rest with
      | EmptyString => if is_space c then EmptyString else String c EmptyString
      | t => String c t
      end
  end.

Definition strip (s : string) : string := rstrip (lstrip s).

(** The claim C4 as the specification words it: a field that is empty once
    its whitespace is trimmed keeps the booking from being stored. *)
Definition trimmed_fields_are_validated : Prop :=
  forall (r : Request) (fid : Z) (w : World) (A : User.t) (f : Flight.t)
         (fn em ph : string),
    current_user w = Some A ->
    flight_get (db w) fid = Some f ->
    form_get (form r) "full_name" = Some fn ->
    form_get (form r) "email" = Some em ->
    form_get (form r) "phone" = Some ph ->
    strip fn = "" \/ strip em = "" \/ strip ph = "" ->
    bookings (db (snd (serve (book_flight r fid) w))) = bookings (db w).

(** Worlds to run the views on: the two seeded flights, the users alice and
    admin, and one of them logged in. *)
Definition demo_alice : User.t := User.mk 1 "alice" "demo$0$pw1".
Definition demo_admin : User.t := User.mk 2 "admin" "demo$1$root".

Definition demo_db : Database :=
  mkDatabase [demo_alice; demo_admin] seeded_flights [].

Definition demo_world : World := mkWorld demo_db (Some 1) [] 2.
Definition demo_admin_world : World := mkWorld demo_db (Some 2) [] 2.
Definition demo_anonymous_world : World := mkWorld demo_db None [] 2.

(** What a delete view of the Flight model view does to the tables when it
    runs, to watch the admin gate keep it from running. *)
Definition demo_delete_flights : M Response :=
  modify_world (fun w =>
    mkWorld (mkDatabase (users (db w)) [] (bookings (db w)))
            (login_session w) (flashes w) (rng w)) ;;;
  ret (Redirect "admin" None).

Definition credentials (username password : string) : Request :=
  mkRequest POST [("username", username); ("password", password)].

Definition demo_booking_form : list (string * string) :=
  [("full_name", "Alice A"); ("email", "a@x.com"); ("phone", "123")].


(** The claim C8 as the specification words it: hours and minutes are
    quotients that truncate towards zero. *)
Definition duration_truncates_toward_zero : Prop :=
  forall (w : World) (fid : Z) (f : Flight.t),
    flight_get (db w) fid = Some f ->
    let total := total_seconds_sub (Flight.arrival_datetime f)
                                   (Flight.departure_datetime f) in
    serve (flight_details fid) w =
    (RenderTemplate "flight_details.html"
       (CtxFlightDetails f (Z.quot total 3600) (Z.quot (Z.rem total 3600) 60)),
     w).

(** A flight that lands one second before it leaves; nothing keeps the
    admin panel from storing one. *)
Definition backwards_flight : Flight.t :=
  Flight.mk 1 "A" "B" "" "" "A-B"
            (DateTime.mk 2024 5 10 10 0 1) (DateTime.mk 2024 5 10 10 0 0)
            100%float.

(** ** The URL map *)

(** The two models registered with [admin.add_view]. *)
Inductive AdminModel : Type := AdminFlight | AdminBooking.

(** The endpoints of the [@app.route] and [@expose] decorators and of the
    two model views.  The [<int:flight_id>] converter only yields integers
    that are not negative; the views are modelled, and the properties hold,
    on every integer.  A model view is named by its model and by the name of
    the exposed view of Flask-Admin's [ModelView] (the list, create, edit,
    details and delete views and the others the library exposes). *)
Inductive Url : Type :=
| UrlIndex                          (* /                              *)
| UrlAbout                          (* /about                         *)
| UrlRegister                       (* /register, GET and POST        *)
| UrlLogin                          (* /login, GET and POST           *)
| UrlLogout                         (* /logout                        *)
| UrlFlightDetails (flight_id : Z)  (* /flights/<int:flight_id>       *)
| UrlBookFlight (flight_id : Z)     (* /flights/<int:flight_id>/book, POST *)
| UrlBookings                       (* /bookings                      *)
| UrlAdmin                          (* /admin/                        *)
| UrlModelView (model : AdminModel) (view : string).
                                    (* /admin/flight/..., /admin/booking/... *)

Definition is_model_view (u : Url) : bool :=
  match u with
  | UrlModelView _ _ => true
  | _ => false
  end.

Definition method_eqb (a b : Method) : bool :=
  match a, b with
  | GET, GET | POST, POST => true
  | _, _ => false
  end.

Section Routes.

Variable generate_password_hash : nat -> string -> string.
Variable check_password_hash : string -> string -> bool.

(** Flask-Admin's side of the model views: the methods the rule of an
    exposed view lists ([None] where the library exposes no view of that
    name), and what the view does once it runs. *)
Variable model_view_methods : string -> option (list Method).
Variable model_view_action : AdminModel -> string -> Request -> M Response.

(** The view a request reaches.  A rule without [methods] answers GET only,
    and a method the rule does not list is answered with 405 before any view
    runs; a path no rule matches is answered with 404.  The views of the two
    model views run behind [MyModelView.is_accessible]. *)
Definition route (u : Url) (r : Request) : M Response :=
  match u, method r with
  | UrlIndex, GET => index
  | UrlAbout, GET => about
  | UrlRegister, _ => register generate_password_hash r
  | UrlLogin, _ => login check_password_hash r
  | UrlLogout, GET => logout
  | UrlFlightDetails flight_id, GET => flight_details flight_id
  | UrlBookFlight flight_id, POST => book_flight r flight_id
  | UrlBookings, GET => bookings_view
  | UrlAdmin, GET => MyAdminIndexView.index
  | UrlModelView model view, m =>
      match model_view_methods view with
      | None => ret (ErrorPage 404)
      | Some methods =>
          if existsb (method_eqb m) methods
          then MyModelView.exposed (model_view_action model view r)
          else ret (ErrorPage 405)
      end
  | _, _ => ret (ErrorPage 405)
  end.

(** The world after a sequence of requests, served one after the other. *)
Fixpoint run (reqs : list (Url * Request)) (w : World) : World :=
  match reqs with
  | [] => w
  | (u, r) :: rest => run rest (snd (serve (route u r) w))
  end.

(** Along a sequence of requests, every request to a model view comes from
    a caller who is not logged in under the name [admin]. *)
Fixpoint model_views_without_admin (reqs : list (Url * Request)) (w : World)
  : Prop :=
  match reqs with
  | [] => True
  | (u, r) :: rest =>
      (is_model_view u = true -> ~ IsAdmin w) /\
      model_views_without_admin rest (snd (serve (route u r) w))
  end.

End Routes.

(** ** Integrity of the tables *)

(** Every booking names a stored user and a stored flight: the two foreign
    keys of [Booking]. *)
Definition references_exist (d : Database) : Prop :=
  forall b, In b (bookings d) ->
    (exists u, In u (users d) /\ User.id u = Booking.user_id b) /\
    (exists f, In f (flights d) /\ Flight.id f = Booking.flight_id b).

(** What the schema promises of the tables: unique user names, unique
    primary keys, foreign keys that resolve. *)
Record WellFormed (d : Database) : Prop := mkWellFormed {
  wf_usernames : NoDup (map User.username (users d));
  wf_user_ids : NoDup (map User.id (users d));
  wf_flight_ids : NoDup (map Flight.id (flights d));
  wf_booking_ids : NoDup (map Booking.id (bookings d));
  wf_references : references_exist d
}.

(** The ways a request can change the tables, a request of the admin to a
    model view apart. *)
Inductive DbStep (d : Database) : Database -> Prop :=
| step_none : DbStep d d
| step_user (username pwhash : string) :
    user_by_username d username = None ->
    DbStep d (insert_row d (NewUser username pwhash))
| step_seed :
    flights d = [] ->
    DbStep d (fold_left insert_row default_flights d)
| step_booking (f : Flight.t) (u : User.t) (full_name email phone : string) :
    In f (flights d) -> In u (users d) ->
    DbStep d (insert_row d (NewBooking (Flight.id f) (User.id u)
                                       full_name email phone)).

(** The session names no stored user: nobody is logged in, or the cookie is
    stale. *)
Definition Anonymous (w : World) : Prop := current_user w = None.

(** A world whose cookie names a user id that is not in the table. *)
Definition demo_stale_world : World := mkWorld demo_db (Some 77) [] 2.

(** A stand-in for Flask-Admin's model views, to run the URL map on
    examples: a list view and a delete view, which empties the flight
    table. *)
Definition demo_model_view_methods (view : string) : option (list Method) :=
  if String.eqb view "index_view" then Some [GET]
  else if String.eqb view "delete_view" then Some [POST]
  else None.

Definition demo_model_view_action (model : AdminModel) (view : string)
    (r : Request) : M Response :=
  if String.eqb view "delete_view" then demo_delete_flights
  else ret (RenderTemplate "admin/model/list.html" NoContext).

Definition demo_route : Url -> Request -> M Response :=
  route demo_generate_password_hash demo_check_password_hash
        demo_model_view_methods demo_model_view_action.

(** Alice finds the catalogue, registers, logs in, tries to delete the
    flights through the admin panel and books flight 1. *)
Definition demo_requests : list (Url * Request) :=
  [ (UrlIndex, mkRequest GET []);
    (UrlRegister, credentials "alice" "pw1");
    (UrlLogin, credentials "alice" "pw1");
    (UrlModelView AdminFlight "delete_view", mkRequest POST []);
    (UrlBookFlight 1, mkRequest POST demo_booking_form) ].

(** Unfolds the monad and the operations of a view down to the queries. *)
Ltac run_view :=
  unfold serve, login_required, unauthorized, flight_get_or_404, request_form,
    attr_id, attr_username, login_user, logout_user, set_password,
    session_add, session_add_all, session_commit, flash, modify_world,
    gets, raise, bind, ret;
  cbn [world session_new db login_session flashes rng fst snd].

(** * Properties *)

(** ** Lemmas on the queries *)

Lemma user_by_username_Some d name u :
  user_by_username d name = Some u ->
  In u (users d) /\ User.username u = name.
Proof.
  unfold user_by_username. intros H.
  apply find_some in H. destruct H as [Hin Heq].
  split; [exact Hin | now apply String.eqb_eq].
Qed.

Lemma user_by_username_None d name :
  user_by_username d name = None <->
  (forall u, In u (users d) -> User.username u <> name).
Proof.
  unfold user_by_username. split.
  - intros H u Hin Heq.
    pose proof (find_none _ _ H u Hin) as Hf. cbv beta in Hf.
    rewrite Heq, String.eqb_refl in Hf. discriminate.
  - intros H. destruct (find _ _) as [u|] eqn:E; [|reflexivity].
    apply find_some in E. destruct E as [Hin Heq].
    apply String.eqb_eq in Heq. exfalso. exact (H u Hin Heq).
Qed.


Lemma flight_get_Some d fid f :
  flight_get d fid = Some f -> In f (flights d) /\ Flight.id f = fid.
Proof.
  unfold flight_get. intros H.
  apply find_some in H. destruct H as [Hin Heq].
  split; [exact Hin | now apply Z.eqb_eq].
Qed.

Lemma flight_get_None d fid :
  flight_get d fid = None <->
  (forall f, In f (flights d) -> Flight.id f <> fid).
Proof.
  unfold flight_get. split.
  - intros H f Hin Heq.
    pose proof (find_none _ _ H f Hin) as Hf. cbv beta in Hf.
    rewrite Heq, Z.eqb_refl in Hf. discriminate.
  - intros H. destruct (find _ _) as [f|] eqn:E; [|reflexivity].
    apply find_some in E. destruct E as [Hin Heq].
    apply Z.eqb_eq in Heq. exfalso. exact (H f Hin Heq).
Qed.

Lemma bookings_of_In d uid b :
  In b (bookings_of d uid) <-> In b (bookings d) /\ Booking.user_id b = uid.
Proof.
  unfold bookings_of. rewrite filter_In, Z.eqb_eq. reflexivity.
Qed.






Lemma register_fresh_run gph r w u p :
  method r = POST ->
  form_get (form r) "username" = Some u ->
  form_get (form r) "password" = Some p ->
  user_by_username (db w) u = None ->
  serve (register gph r) w =
  (Redirect "login" None, world_after_register w u (gph (rng w) p)).
Proof.
  intros Hm Hu Hp Hf. unfold register. rewrite Hm. run_view.
  rewrite Hu, Hp. cbn. rewrite Hf. reflexivity.
Qed.


Lemma register_preserves_unique_usernames gph r w :
  NoDup (map User.username (users (db w))) ->
  NoDup (map User.username (users (db (snd (serve (register gph r) w))))).
Proof.
  intros Hnd. unfold register. destruct (method r); [exact Hnd|].
  run_view.
  destruct (form_get (form r) "username") as [u|]; cbn; [|exact Hnd].
  destruct (form_get (form r) "password") as [p|]; cbn; [|exact Hnd].
  destruct (user_by_username (db w) u) as [usr|] eqn:E; cbn; [exact Hnd|].
  rewrite map_app. apply NoDup_app; [exact Hnd | repeat constructor; intros [] |].
  intros name Hin [<- | []].
  apply in_map_iff in Hin. destruct Hin as (usr & Hname & Hin).
  exact (proj1 (user_by_username_None _ _) E usr Hin Hname).
Qed.

Lemma login_run cph r w u p :
  method r = POST ->
  form_get (form r) "username" = Some u ->
  form_get (form r) "password" = Some p ->
  serve (login cph r) w =
  match user_by_username (db w) u with
  | Some usr =>
      if cph (User.password_hash usr) p
      then (Redirect "index" None,
            mkWorld (db w) (Some (User.id usr)) (flashes w) (rng w))
      else (Redirect "login" None, world_flashed w MSG_BAD_LOGIN)
  | None => (Redirect "login" None, world_flashed w MSG_BAD_LOGIN)
  end.
Proof.
  intros Hm Hu Hp. unfold login. rewrite Hm. run_view.
  rewrite Hu, Hp. cbn.
  destruct (user_by_username (db w) u) as [usr|]; [|reflexivity].
  unfold check_password. destruct (cph _ p); reflexivity.
Qed.

(** ** Registration *)


(** C10.  Registration checks nothing but the name being free: for any
    name nobody carries and any password, the empty string included, it
    succeeds and stores a user with exactly that name. *)
Theorem register_accepts_any_free_username :
  forall (gph : nat -> string -> string) (w : World) (u p : string),
    (forall usr, In usr (users (db w)) -> User.username usr <> u) ->
    let r := mkRequest POST [("username", u); ("password", p)] in
    let new_user :=
      User.mk (next_id (map User.id (users (db w)))) u (gph (rng w) p) in
    fst (serve (register gph r) w) = Redirect "login" None /\
    users (db (snd (serve (register gph r) w))) = (users (db w) ++ [new_user])%list /\
    User.username new_user = u.
Proof.
  intros gph w u p Hfree r new_user.
  assert (Hrun : serve (register gph r) w =
                 (Redirect "login" None, world_after_register w u (gph (rng w) p))).
  { apply register_fresh_run; try reflexivity.
    now apply user_by_username_None. }
  rewrite Hrun. repeat split.
Qed.

(** ** Login *)

(** C5.  A login with a name nobody carries and a login with a password the
    stored hash does not accept end in the same response and the same world:
    the bad-credentials message, a redirect to the login page, and the
    session as it was.  A login the hash accepts puts the id of the user
    found into the session. *)
Theorem login_failure_is_generic :
  forall (cph : string -> string -> bool) (r : Request) (w : World)
         (u p : string),
    method r = POST ->
    form_get (form r) "username" = Some u ->
    form_get (form r) "password" = Some p ->
    let failure := (Redirect "login" None, world_flashed w MSG_BAD_LOGIN) in
    ((forall usr, In usr (users (db w)) -> User.username usr <> u) ->
     serve (login cph r) w = failure)
    /\
    (forall usr, user_by_username (db w) u = Some usr ->
                 cph (User.password_hash usr) p = false ->
                 serve (login cph r) w = failure)
    /\
    login_session (snd failure) = login_session w
    /\
    (forall usr, user_by_username (db w) u = Some usr ->
                 cph (User.password_hash usr) p = true ->
                 serve (login cph r) w =
                 (Redirect "index" None,
                  mkWorld (db w) (Some (User.id usr)) (flashes w) (rng w))).
Proof.
  intros cph r w u p Hm Hu Hp failure.
  pose proof (login_run cph r w u p Hm Hu Hp) as Hrun.
  repeat split.
  - intros Hnone. apply user_by_username_None in Hnone.
    now rewrite Hnone in Hrun.
  - intros usr Hf Hc. now rewrite Hf, Hc in Hrun.
  - intros usr Hf Hc. now rewrite Hf, Hc in Hrun.
Qed.

(** ** Booking *)

Lemma book_flight_run r fid w A f fn em ph :
  current_user w = Some A ->
  flight_get (db w) fid = Some f ->
  form_get (form r) "full_name" = Some fn ->
  form_get (form r) "email" = Some em ->
  form_get (form r) "phone" = Some ph ->
  serve (book_flight r fid) w =
  if str_is_empty fn || str_is_empty em || str_is_empty ph
  then (Redirect "flight_details" (Some fid), world_flashed w MSG_FILL_ALL)
  else (Redirect "bookings" None,
        world_after_booking w
          (new_booking w (Flight.id f) (User.id A) fn em ph)).
Proof.
  intros Hu Hf Hfn Hem Hph. unfold book_flight. run_view.
  rewrite Hu. cbn. rewrite Hf, Hfn, Hem, Hph. cbn.
  destruct (str_is_empty fn || str_is_empty em || str_is_empty ph); cbn.
  - reflexivity.
  - rewrite Hu. reflexivity.
Qed.

Lemma fits_sqlite_integer_true n :
  fits_sqlite_integer n = true <-> SQLITE_MIN <= n <= SQLITE_MAX.
Proof.
  unfold fits_sqlite_integer. rewrite andb_true_iff, !Z.leb_le. reflexivity.
Qed.

Lemma fits_sqlite_integer_false n :
  fits_sqlite_integer n = false <-> n < SQLITE_MIN \/ SQLITE_MAX < n.
Proof.
  unfold fits_sqlite_integer. rewrite andb_false_iff, !Z.leb_gt. reflexivity.
Qed.

Lemma out_of_range_id_is_unknown d fid :
  Forall (fun f => fits_sqlite_integer (Flight.id f) = true) (flights d) ->
  fits_sqlite_integer fid = false ->
  flight_get d fid = None.
Proof.
  intros Hall Hout. apply flight_get_None. intros f Hin Hid.
  rewrite Forall_forall in Hall. specialize (Hall f Hin).
  rewrite Hid, Hout in Hall. discriminate Hall.
Qed.


Lemma book_flight_success_inv r fid w A f :
  current_user w = Some A ->
  flight_get (db w) fid = Some f ->
  fst (serve (book_flight r fid) w) = Redirect "bookings" None ->
  exists fn em ph,
    serve (book_flight r fid) w =
    (Redirect "bookings" None,
     world_after_booking w (new_booking w (Flight.id f) (User.id A) fn em ph)).
Proof.
  intros Hu Hf Hok.
  destruct (form_get (form r) "full_name") as [fn|] eqn:Hfn;
  [destruct (form_get (form r) "email") as [em|] eqn:Hem;
   [destruct (form_get (form r) "phone") as [ph|] eqn:Hph|]|].
  - rewrite (book_flight_run r fid w A f fn em ph Hu Hf Hfn Hem Hph) in Hok |- *.
    destruct (str_is_empty fn || str_is_empty em || str_is_empty ph).
    + discriminate Hok.
    + now exists fn, em, ph.
  - exfalso. revert Hok. unfold book_flight. run_view.
    rewrite Hu. cbn. rewrite Hf, Hfn, Hem, Hph. cbn. discriminate.
  - exfalso. revert Hok. unfold book_flight. run_view.
    rewrite Hu. cbn. rewrite Hf, Hfn, Hem. cbn. discriminate.
  - exfalso. revert Hok. unfold book_flight. run_view.
    rewrite Hu. cbn. rewrite Hf, Hfn. cbn. discriminate.
Qed.

Lemma bookings_view_run w u :
  current_user w = Some u ->
  serve bookings_view w =
  (RenderTemplate "bookings.html" (CtxBookings (bookings_of (db w) (User.id u))),
   w).
Proof.
  intros Hu. unfold bookings_view. run_view.
  rewrite Hu. cbn. rewrite Hu. destruct w; reflexivity.
Qed.

(** C1.  When a logged-in user books an existing flight and the booking
    goes through, the row appended to the booking table carries the id of
    that user and the id of that flight; the booking list of the user then
    shows the row, and the booking list of a user with another id does
    not. *)
Theorem booking_belongs_to_its_creator :
  forall (r : Request) (fid : Z) (w : World) (A : User.t) (f : Flight.t),
    current_user w = Some A ->
    flight_get (db w) fid = Some f ->
    fst (serve (book_flight r fid) w) = Redirect "bookings" None ->
    exists b : Booking.t,
      let w' := snd (serve (book_flight r fid) w) in
      bookings (db w') = (bookings (db w) ++ [b])%list /\
      Booking.user_id b = User.id A /\
      Booking.flight_id b = Flight.id f /\
      (exists l,
          serve bookings_view w' =
          (RenderTemplate "bookings.html" (CtxBookings l), w') /\ In b l) /\
      (forall (wB : World) (B : User.t),
          db wB = db w' ->
          current_user wB = Some B ->
          User.id B <> User.id A ->
          exists l,
            serve bookings_view wB =
            (RenderTemplate "bookings.html" (CtxBookings l), wB) /\ ~ In b l).
Proof.
  intros r fid w A f Hu Hf Hok.
  destruct (book_flight_success_inv r fid w A f Hu Hf Hok) as (fn & em & ph & Hrun).
  exists (new_booking w (Flight.id f) (User.id A) fn em ph).
  rewrite Hrun. cbn [snd].
  set (b := new_booking w (Flight.id f) (User.id A) fn em ph).
  assert (Hin : In b (bookings (db (world_after_booking w b)))).
  { cbn. apply in_or_app. right. left. reflexivity. }
  repeat split.
  - eexists. split.
    + apply bookings_view_run with (u := A). exact Hu.
    + apply bookings_of_In. split; [exact Hin | reflexivity].
  - intros wB B Hdb HB Hne. eexists. split.
    + apply bookings_view_run with (u := B). exact HB.
    + rewrite Hdb. intros Hb. apply bookings_of_In in Hb.
      destruct Hb as [_ Hb]. cbn in Hb. congruence.
Qed.

(** C4, as stated, fails: a full name made of one space is empty once
    trimmed, yet the booking is stored. *)
Lemma blank_full_name_is_booked : ~ trimmed_fields_are_validated.
Proof.
  intros H.
  specialize (H (mkRequest POST
                   [("full_name", " "); ("email", "a@x.com"); ("phone", "123")])
                1 demo_world demo_alice seeded_flight_1 " " "a@x.com" "123"
                eq_refl eq_refl eq_refl eq_refl eq_refl (or_introl eq_refl)).
  vm_compute in H. discriminate H.
Qed.

(** C4, amended.  When the full name, the email or the phone is the empty
    string (nothing is trimmed), the booking is refused with the
    fill-all-fields message and a redirect to the flight page, and no table
    changes. *)
Theorem book_flight_rejects_empty_field :
  forall (r : Request) (fid : Z) (w : World) (A : User.t) (f : Flight.t)
         (fn em ph : string),
    current_user w = Some A ->
    flight_get (db w) fid = Some f ->
    form_get (form r) "full_name" = Some fn ->
    form_get (form r) "email" = Some em ->
    form_get (form r) "phone" = Some ph ->
    fn = "" \/ em = "" \/ ph = "" ->
    serve (book_flight r fid) w =
    (Redirect "flight_details" (Some fid), world_flashed w MSG_FILL_ALL) /\
    db (snd (serve (book_flight r fid) w)) = db w.
Proof.
  intros r fid w A f fn em ph Hu Hf Hfn Hem Hph Hempty.
  rewrite (book_flight_run r fid w A f fn em ph Hu Hf Hfn Hem Hph).
  assert (E : str_is_empty fn || str_is_empty em || str_is_empty ph = true).
  { destruct Hempty as [-> | [-> | ->]]; cbn;
      rewrite ?orb_true_r; reflexivity. }
  rewrite E. split; reflexivity.
Qed.



(** ** The flight catalogue *)

Lemma add_default_flights_noop w :
  flights (db w) <> [] ->
  add_default_flights (mkSt w []) = (Ok tt, mkSt w []).
Proof.
  intros Hne. unfold add_default_flights, flight_first. run_view.
  destruct (flights (db w)) as [|f fl]; [contradiction|reflexivity].
Qed.

(** C6.  On an empty flight table the home page first stores the two
    hard-coded flights and lists exactly them, and a second visit lists the
    same two and stores nothing; whenever the table has a flight, the home
    page lists the table and leaves the world as it was. *)
Theorem index_seeds_two_flights_once :
  forall w : World,
    (flights (db w) = [] ->
     let w1 := snd (serve index w) in
     serve index w = (RenderTemplate "index.html" (CtxFlights seeded_flights), w1) /\
     w1 = mkWorld (mkDatabase (users (db w)) seeded_flights (bookings (db w)))
                  (login_session w) (flashes w) (rng w) /\
     serve index w1 = (RenderTemplate "index.html" (CtxFlights seeded_flights), w1))
    /\
    (flights (db w) <> [] ->
     serve index w = (RenderTemplate "index.html" (CtxFlights (flights (db w))), w)).
Proof.
  intros [[us fl bk] ls fs rg]. cbn [db flights users bookings login_session flashes rng].
  split.
  - intros ->. repeat split.
  - intros Hne. unfold index, bind, serve.
    rewrite add_default_flights_noop by exact Hne. reflexivity.
Qed.

(** C8, as stated, fails: for a flight of minus one second the page shows
    -1 hours and 59 minutes, where truncation gives 0 and 0. *)
Lemma negative_duration_is_floored : ~ duration_truncates_toward_zero.
Proof.
  intros H.
  specialize (H (mkWorld (mkDatabase [] [backwards_flight] []) None [] 0%nat)
                1 backwards_flight eq_refl).
  vm_compute in H. discriminate H.
Qed.

(** C8, amended.  For an existing flight the page shows the flight with
    hours and minutes obtained by floor division of the seconds between
    departure and arrival: the hours are the quotient by 3600 and the minutes
    the quotient by 60 of the remainder, so that the seconds are the hours,
    the minutes (between 0 and 59) and less than a minute more.  When the
    arrival is not before the departure these are the quotients that
    truncate towards zero. *)
Theorem flight_details_duration :
  forall (w : World) (fid : Z) (f : Flight.t),
    flight_get (db w) fid = Some f ->
    let total := total_seconds_sub (Flight.arrival_datetime f)
                                   (Flight.departure_datetime f) in
    exists h m : Z,
      serve (flight_details fid) w =
      (RenderTemplate "flight_details.html" (CtxFlightDetails f h m), w) /\
      h = total / 3600 /\
      m = (total mod 3600) / 60 /\
      0 <= m < 60 /\
      0 <= total - (3600 * h + 60 * m) < 60 /\
      (0 <= total ->
       h = Z.quot total 3600 /\ m = Z.quot (Z.rem total 3600) 60).
Proof.
  intros w fid f Hf total.
  exists (total / 3600), ((total mod 3600) / 60).
  assert (Hmod : 0 <= total mod 3600 < 3600) by (apply Z.mod_pos_bound; lia).
  pose proof (Z.div_mod total 3600 ltac:(lia)) as Hdm.
  pose proof (Z.div_mod (total mod 3600) 60 ltac:(lia)) as Hdm'.
  assert (Hmod' : 0 <= (total mod 3600) mod 60 < 60)
    by (apply Z.mod_pos_bound; lia).
  repeat split.
  - unfold flight_details. run_view. rewrite Hf. cbn. destruct w; reflexivity.
  - apply Z.div_pos; lia.
  - apply Z.div_lt_upper_bound; lia.
  - lia.
  - lia.
  - rewrite Z.quot_div_nonneg by lia. reflexivity.
  - rewrite Z.rem_mod_nonneg by lia.
    rewrite Z.quot_div_nonneg by lia. reflexivity.
Qed.

(** ** The admin gate *)

Lemma not_admin_cases w :
  ~ IsAdmin w ->
  current_user w = None \/
  exists u, current_user w = Some u /\ String.eqb (User.username u) "admin" = false.
Proof.
  intros Hn. destruct (current_user w) as [u|] eqn:Hu; [right|left; reflexivity].
  exists u. split; [reflexivity|].
  destruct (String.eqb_spec (User.username u) "admin") as [E|E]; [|reflexivity].
  exfalso. apply Hn. exists u. split; [exact Hu | exact E].
Qed.

(** C2.  The admin index page and every view of the two model views run
    only for a logged-in user whose name is exactly [admin]: for that user the
    view runs as if unguarded, and for anybody else, logged in or not, the
    answer is a redirect to the login page and the world is untouched. *)
Theorem admin_views_require_admin :
  forall (action : M Response) (w : World),
    (IsAdmin w ->
     serve (MyModelView.exposed action) w = serve action w /\
     serve MyAdminIndexView.index w =
     (RenderTemplate "admin/index.html" NoContext, w))
    /\
    (~ IsAdmin w ->
     serve (MyModelView.exposed action) w = (Redirect "login" None, w) /\
     serve MyAdminIndexView.index w = (Redirect "login" None, w)).
Proof.
  intros action w. split.
  - intros [u [Hu Hname]].
    unfold MyModelView.exposed, MyAdminIndexView.index,
      MyModelView.is_accessible, AdminIndexView.index. run_view.
    rewrite Hu. cbn. rewrite Hname. cbn.
    split; [reflexivity | destruct w; reflexivity].
  - intros Hn.
    unfold MyModelView.exposed, MyAdminIndexView.index,
      MyModelView.is_accessible, MyModelView.inaccessible_callback,
      AdminIndexView.index. run_view.
    destruct (not_admin_cases w Hn) as [Hu | [u [Hu Hname]]];
      rewrite Hu; cbn; rewrite ?Hname; cbn; destruct w; split; reflexivity.
Qed.

(** ** File names *)

Lemma contains_dot_app_dot a b : contains_dot (a ++ String "." b) = true.
Proof.
  induction a as [|x a IH]; cbn; [reflexivity|].
  rewrite IH. apply orb_true_r.
Qed.

Lemma split_last_dot_None s :
  split_last_dot s = None -> contains_dot s = false.
Proof.
  induction s as [|x s IH]; cbn; [reflexivity|].
  destruct (split_last_dot s) as [[? ?]|]; [discriminate|].
  destruct (Ascii.eqb x "."); [discriminate|].
  intros _. now apply IH.
Qed.

Lemma split_last_dot_sound s a b :
  split_last_dot s = Some (a, b) ->
  s = a ++ String "." b /\ contains_dot b = false.
Proof.
  revert a b. induction s as [|c s IH]; intros a b; cbn; [discriminate|].
  destruct (split_last_dot s) as [[a' b']|] eqn:E.
  - intros H. injection H as Ha Hb. subst a b.
    destruct (IH a' b' eq_refl) as [Hs Hnodot]. subst s.
    split; [reflexivity | exact Hnodot].
  - destruct (Ascii.eqb_spec c ".") as [Hc|Hc]; [|discriminate].
    intros H. injection H as Ha Hb. subst a b c.
    split; [reflexivity | now apply split_last_dot_None].
Qed.

Lemma split_last_dot_complete a b :
  contains_dot b = false ->
  split_last_dot (a ++ String "." b) = Some (a, b).
Proof.
  intros Hb. induction a as [|x a IH]; cbn.
  - destruct (split_last_dot b) as [[a' b']|] eqn:E; [|reflexivity].
    apply split_last_dot_sound in E. destruct E as [Hs _].
    rewrite Hs, contains_dot_app_dot in Hb. discriminate Hb.
  - rewrite IH. reflexivity.
Qed.

Lemma split_last_dot_Some s a b :
  split_last_dot s = Some (a, b) <->
  s = a ++ String "." b /\ contains_dot b = false.
Proof.
  split; [apply split_last_dot_sound|].
  intros [Hs Hb]. subst s. now apply split_last_dot_complete.
Qed.

Lemma contains_dot_split s :
  contains_dot s = true <-> exists a b, split_last_dot s = Some (a, b).
Proof.
  split.
  - intros Hdot. destruct (split_last_dot s) as [[a b]|] eqn:E.
    + now exists a, b.
    + rewrite (split_last_dot_None s E) in Hdot. discriminate Hdot.
  - intros (a & b & E). apply split_last_dot_sound in E.
    destruct E as [Hs _]. subst s. apply contains_dot_app_dot.
Qed.

Lemma in_allowed_In x : in_allowed x = true <-> In x ALLOWED_EXTENSIONS.
Proof.
  unfold in_allowed. rewrite existsb_exists. split.
  - intros (y & Hin & Heq). apply String.eqb_eq in Heq. now subst.
  - intros Hin. exists x. split; [exact Hin | apply String.eqb_refl].
Qed.

Lemma allowed_file_iff filename :
  allowed_file filename = true <->
  exists stem ext,
    filename = stem ++ String "." ext /\
    contains_dot ext = false /\
    In (lower ext) ALLOWED_EXTENSIONS.
Proof.
  unfold allowed_file, rsplit_dot. split.
  - intros H. apply andb_true_iff in H. destruct H as [Hdot Hext].
    destruct (split_last_dot filename) as [[a b]|] eqn:E; cbn in Hext.
    + apply split_last_dot_Some in E. destruct E as [-> Hb].
      exists a, b. repeat split; [exact Hb | now apply in_allowed_In].
    + discriminate Hext.
  - intros (stem & ext & Hname & Hnodot & Hin).
    assert (E : split_last_dot filename = Some (stem, ext))
      by (apply split_last_dot_Some; split; assumption).
    rewrite E. cbn [nth_error]. rewrite (proj2 (in_allowed_In _) Hin), andb_true_r.
    apply contains_dot_split. now exists stem, ext.
Qed.


(** * The theorems at work on the demonstration worlds *)

Lemma booking_belongs_to_its_creator_witness :
  exists b : Booking.t,
    bookings (db (snd (serve (book_flight (mkRequest POST demo_booking_form) 1)
                             demo_world))) = [b] /\
    Booking.user_id b = 1 /\ Booking.flight_id b = 1.
Proof.
  destruct (booking_belongs_to_its_creator
              (mkRequest POST demo_booking_form) 1 demo_world
              demo_alice seeded_flight_1 eq_refl eq_refl eq_refl)
    as [b (Hb & Hu & Hf & _)].
  exists b. split; [exact Hb | split; [exact Hu | exact Hf]].
Defined.

Lemma admin_views_require_admin_witness :
  serve (MyModelView.exposed demo_delete_flights) demo_world =
  (Redirect "login" None, demo_world) /\
  serve (MyModelView.exposed demo_delete_flights) demo_anonymous_world =
  (Redirect "login" None, demo_anonymous_world) /\
  flights (db (snd (serve (MyModelView.exposed demo_delete_flights)
                          demo_admin_world))) = [] /\
  serve MyAdminIndexView.index demo_admin_world =
  (RenderTemplate "admin/index.html" NoContext, demo_admin_world).
Proof.
  assert (Halice : ~ IsAdmin demo_world).
  { intros [u [Hu Hname]]. vm_compute in Hu. injection Hu as <-.
    discriminate Hname. }
  assert (Hanon : ~ IsAdmin demo_anonymous_world).
  { intros [u [Hu _]]. discriminate Hu. }
  assert (Hadmin : IsAdmin demo_admin_world).
  { exists demo_admin. split; reflexivity. }
  destruct (admin_views_require_admin demo_delete_flights demo_world)
    as [_ Hno1].
  destruct (admin_views_require_admin demo_delete_flights demo_anonymous_world)
    as [_ Hno2].
  destruct (admin_views_require_admin demo_delete_flights demo_admin_world)
    as [Hyes _].
  split; [exact (proj1 (Hno1 Halice))|].
  split; [exact (proj1 (Hno2 Hanon))|].
  split; [rewrite (proj1 (Hyes Hadmin)); reflexivity|].
  exact (proj2 (Hyes Hadmin)).
Defined.



Lemma book_flight_rejects_empty_field_witness :
  let r := mkRequest POST
             [("full_name", ""); ("email", "a@x.com"); ("phone", "123")] in
  serve (book_flight r 1) demo_world =
  (Redirect "flight_details" (Some 1), world_flashed demo_world MSG_FILL_ALL).
Proof.
  exact (proj1 (book_flight_rejects_empty_field
                  (mkRequest POST
                     [("full_name", ""); ("email", "a@x.com"); ("phone", "123")])
                  1 demo_world demo_alice seeded_flight_1 "" "a@x.com" "123"
                  eq_refl eq_refl eq_refl eq_refl eq_refl (or_introl eq_refl))).
Defined.

Lemma login_failure_is_generic_witness :
  serve (login demo_check_password_hash (credentials "nobody" "pw1"))
        demo_anonymous_world =
  serve (login demo_check_password_hash (credentials "alice" "wrong"))
        demo_anonymous_world /\
  login_session
    (snd (serve (login demo_check_password_hash (credentials "alice" "pw1"))
                demo_anonymous_world)) = Some 1.
Proof.
  destruct (login_failure_is_generic demo_check_password_hash
              (credentials "nobody" "pw1") demo_anonymous_world "nobody" "pw1"
              eq_refl eq_refl eq_refl) as (Habsent & _ & _ & _).
  destruct (login_failure_is_generic demo_check_password_hash
              (credentials "alice" "wrong") demo_anonymous_world "alice" "wrong"
              eq_refl eq_refl eq_refl) as (_ & Hwrong & _ & _).
  destruct (login_failure_is_generic demo_check_password_hash
              (credentials "alice" "pw1") demo_anonymous_world "alice" "pw1"
              eq_refl eq_refl eq_refl) as (_ & _ & _ & Hgood).
  split.
  - rewrite Habsent.
    + rewrite (Hwrong demo_alice eq_refl eq_refl). reflexivity.
    + intros usr [<- | [<- | []]]; discriminate.
  - rewrite (Hgood demo_alice eq_refl eq_refl). reflexivity.
Defined.

Lemma index_seeds_two_flights_once_witness :
  fst (serve index empty_world) =
  RenderTemplate "index.html" (CtxFlights seeded_flights) /\
  fst (serve index (snd (serve index empty_world))) =
  RenderTemplate "index.html" (CtxFlights seeded_flights) /\
  serve index demo_world =
  (RenderTemplate "index.html" (CtxFlights seeded_flights), demo_world).
Proof.
  destruct (proj1 (index_seeds_two_flights_once empty_world) eq_refl)
    as (Hfirst & _ & Hsecond).
  split; [|split].
  - rewrite Hfirst. reflexivity.
  - rewrite Hsecond. reflexivity.
  - apply (proj2 (index_seeds_two_flights_once demo_world)). discriminate.
Defined.


Lemma flight_details_duration_witness :
  serve (flight_details 1) demo_world =
  (RenderTemplate "flight_details.html" (CtxFlightDetails seeded_flight_1 1 30),
   demo_world).
Proof.
  destruct (flight_details_duration demo_world 1 seeded_flight_1 eq_refl)
    as (h & m & Hrun & Hh & Hm & _).
  rewrite Hrun, Hh, Hm. reflexivity.
Defined.

Lemma register_accepts_any_free_username_witness :
  let r := credentials "" "" in
  fst (serve (register demo_generate_password_hash r) empty_world) =
  Redirect "login" None /\
  users (db (snd (serve (register demo_generate_password_hash r) empty_world))) =
  [User.mk 1 "" "demo$0$"].
Proof.
  destruct (register_accepts_any_free_username
              demo_generate_password_hash empty_world "" ""
              (fun usr (H : In usr []) => match H with end))
    as (Hok & Husers & _).
  split; [exact Hok | exact Husers].
Defined.

(** The walk through the application the specification ends on: alice
    registers, logs in and books flight 1; her booking list then holds one
    booking, hers, for that flight. *)
Example register_login_book_list :
  let gph := demo_generate_password_hash in
  let cph := demo_check_password_hash in
  let w0 := snd (serve index empty_world) in
  let w1 := snd (serve (register gph (credentials "alice" "pw1")) w0) in
  let w2 := snd (serve (login cph (credentials "alice" "pw1")) w1) in
  let w3 := snd (serve (book_flight (mkRequest POST demo_booking_form) 1) w2) in
  fst (serve bookings_view w3) =
  RenderTemplate "bookings.html"
    (CtxBookings [Booking.mk 1 1 1 "Alice A" "a@x.com" "123"]).
Proof. reflexivity. Qed.

(** * Further properties of the views *)

(** ** The login gate *)

Lemma login_required_anonymous view w :
  current_user w = None ->
  serve (login_required view) w =
  (Redirect "login" None, world_flashed w LOGIN_MESSAGE).
Proof.
  intros Hu. run_view. rewrite Hu. reflexivity.
Qed.

Lemma login_required_authenticated view w u :
  current_user w = Some u ->
  serve (login_required view) w = serve view w.
Proof.
  intros Hu. run_view. rewrite Hu. reflexivity.
Qed.

(** X1.  Without a logged-in user (no session, or a session that names no
    stored user) booking, the booking list and logout all answer with the
    redirect to the login page and the please-log-in message; no table and
    no session changes, whatever the form and the flight id are. *)
Theorem protected_views_refuse_anonymous :
  forall (r : Request) (fid : Z) (w : World),
    Anonymous w ->
    let refusal := (Redirect "login" None, world_flashed w LOGIN_MESSAGE) in
    serve (book_flight r fid) w = refusal /\
    serve bookings_view w = refusal /\
    serve logout w = refusal.
Proof.
  intros r fid w Hanon refusal. unfold Anonymous in Hanon.
  repeat split; unfold book_flight, bookings_view, logout;
    now apply login_required_anonymous.
Qed.

(** X2.  Logout of a logged-in user empties the session and redirects to
    the home page without touching the tables; from then on the caller is
    anonymous and the booking list is refused. *)
Theorem logout_ends_the_session :
  forall (w : World) (u : User.t),
    current_user w = Some u ->
    let w' := mkWorld (db w) None (flashes w) (rng w) in
    serve logout w = (Redirect "index" None, w') /\
    Anonymous w' /\
    serve bookings_view w' =
    (Redirect "login" None, world_flashed w' LOGIN_MESSAGE).
Proof.
  intros w u Hu w'. split; [|split].
  - unfold logout. rewrite (login_required_authenticated _ w u Hu).
    run_view. reflexivity.
  - reflexivity.
  - unfold bookings_view. now apply login_required_anonymous.
Qed.

(** ** Who the session names *)

Lemma find_first_unique_id (l : list User.t) (usr : User.t) :
  NoDup (map User.id l) -> In usr l ->
  find (fun u => User.id u =? User.id usr) l = Some usr.
Proof.
  induction l as [|x l IH]; cbn; intros Hnd Hin; [contradiction|].
  inversion Hnd as [|? ? Hnotin Hnd']; subst.
  destruct Hin as [-> | Hin].
  - now rewrite Z.eqb_refl.
  - destruct (Z.eqb_spec (User.id x) (User.id usr)) as [E|_].
    + exfalso. apply Hnotin. rewrite E. now apply in_map.
    + now apply IH.
Qed.

Lemma next_id_above (ids : list Z) (x : Z) : In x ids -> x < next_id ids.
Proof.
  unfold next_id. induction ids as [|y l IH]; cbn; [contradiction|].
  intros [-> | Hin]; [lia | specialize (IH Hin); lia].
Qed.

Lemma next_id_fresh (ids : list Z) : ~ In (next_id ids) ids.
Proof.
  intros Hin. apply next_id_above in Hin. lia.
Qed.

Lemma next_id_positive (ids : list Z) : 0 < next_id ids.
Proof.
  unfold next_id. induction ids as [|y l IH]; cbn; lia.
Qed.

Lemma next_id_snoc (ids : list Z) :
  next_id (ids ++ [next_id ids]) = next_id ids + 1.
Proof.
  unfold next_id.
  assert (H : forall m, 0 <= m -> fold_right Z.max 0 ids <= m ->
                        fold_right Z.max 0 (ids ++ [m]) = m).
  { induction ids as [|y l IH]; cbn; intros m Hm Hle; [lia|].
    rewrite IH by lia. lia. }
  assert (Hpos : 0 <= fold_right Z.max 0 ids)
    by (clear; induction ids; cbn; lia).
  rewrite H by lia. reflexivity.
Qed.

Lemma find_new_user (l : list User.t) (new : User.t) :
  ~ In (User.id new) (map User.id l) ->
  find (fun u => User.id u =? User.id new) (l ++ [new]) = Some new.
Proof.
  induction l as [|x l IH]; cbn; intros Hfresh.
  - now rewrite Z.eqb_refl.
  - destruct (Z.eqb_spec (User.id x) (User.id new)) as [E|_].
    + exfalso. apply Hfresh. now left.
    + apply IH. intros Hin. apply Hfresh. now right.
Qed.

Lemma find_new_username (l : list User.t) (new : User.t) :
  (forall u, In u l -> User.username u <> User.username new) ->
  find (fun u => String.eqb (User.username u) (User.username new)) (l ++ [new])
  = Some new.
Proof.
  induction l as [|x l IH]; cbn; intros Hfree.
  - now rewrite String.eqb_refl.
  - destruct (String.eqb_spec (User.username x) (User.username new)) as [E|_].
    + exfalso. exact (Hfree x (or_introl eq_refl) E).
    + apply IH. intros u Hin. apply Hfree. now right.
Qed.

(** X3.  With unique user ids, a login the stored hash accepts makes the
    user found by name the current user of the following requests. *)
Theorem login_sets_current_user :
  forall (cph : string -> string -> bool) (r : Request) (w : World)
         (u p : string) (usr : User.t),
    method r = POST ->
    form_get (form r) "username" = Some u ->
    form_get (form r) "password" = Some p ->
    NoDup (map User.id (users (db w))) ->
    user_by_username (db w) u = Some usr ->
    cph (User.password_hash usr) p = true ->
    current_user (snd (serve (login cph r) w)) = Some usr.
Proof.
  intros cph r w u p usr Hm Hu Hp Hnd Hf Hc.
  rewrite (login_run cph r w u p Hm Hu Hp), Hf, Hc. cbn.
  unfold load_user, user_get. cbn.
  apply find_first_unique_id; [exact Hnd|].
  exact (proj1 (user_by_username_Some _ _ _ Hf)).
Qed.

Lemma register_then_login_run gph cph w u p :
  (forall n pw, cph (gph n pw) pw = true) ->
  (forall usr, In usr (users (db w)) -> User.username usr <> u) ->
  let new := User.mk (next_id (map User.id (users (db w)))) u (gph (rng w) p) in
  let w1 := snd (serve (register gph (credentials u p)) w) in
  serve (login cph (credentials u p)) w1 =
  (Redirect "index" None,
   mkWorld (db w1) (Some (User.id new)) (flashes w1) (rng w1)) /\
  current_user (snd (serve (login cph (credentials u p)) w1)) = Some new.
Proof.
  intros Hround Hfree new w1.
  assert (Hw1 : w1 = world_after_register w u (gph (rng w) p)).
  { unfold w1. rewrite (register_fresh_run gph (credentials u p) w u p);
      try reflexivity. now apply user_by_username_None. }
  assert (Hfind : user_by_username (db w1) u = Some new).
  { rewrite Hw1. unfold user_by_username. cbn.
    apply (find_new_username (users (db w)) new). exact Hfree. }
  rewrite (login_run cph (credentials u p) w1 u p eq_refl eq_refl eq_refl).
  rewrite Hfind. cbn [User.password_hash new]. unfold new at 1.
  cbn [User.password_hash]. rewrite Hround. split; [reflexivity|].
  cbn. rewrite Hw1. unfold load_user, user_get. cbn.
  apply (find_new_user (users (db w)) new). cbn. apply next_id_fresh.
Qed.

(** X4.  When the hashing library accepts the password a hash was made of,
    registering a free name and then logging in with the same name and
    password succeeds, and the current user is the user just stored. *)
Theorem register_then_login_succeeds :
  forall (gph : nat -> string -> string) (cph : string -> string -> bool)
         (w : World) (u p : string),
    (forall n pw, cph (gph n pw) pw = true) ->
    (forall usr, In usr (users (db w)) -> User.username usr <> u) ->
    let w1 := snd (serve (register gph (credentials u p)) w) in
    let w2 := snd (serve (login cph (credentials u p)) w1) in
    fst (serve (login cph (credentials u p)) w1) = Redirect "index" None /\
    exists usr,
      current_user w2 = Some usr /\
      User.username usr = u /\
      User.password_hash usr = gph (rng w) p /\
      In usr (users (db w2)).
Proof.
  intros gph cph w u p Hround Hfree w1 w2.
  destruct (register_then_login_run gph cph w u p Hround Hfree) as [Hrun Hcur].
  fold w1 in Hrun, Hcur. split; [now rewrite Hrun|].
  eexists. split; [exact Hcur|]. repeat split.
  unfold w2. rewrite Hrun. cbn [snd db]. unfold w1.
  rewrite (register_fresh_run gph (credentials u p) w u p);
    try reflexivity; [|now apply user_by_username_None].
  cbn. apply in_or_app. right. left. reflexivity.
Qed.

Lemma exposed_runs_for_admin action w :
  IsAdmin w -> serve (MyModelView.exposed action) w = serve action w.
Proof.
  intros [u [Hu Hname]].
  unfold MyModelView.exposed, MyModelView.is_accessible. run_view.
  rewrite Hu. cbn. rewrite Hname. reflexivity.
Qed.

(** X5.  The name admin is not reserved: where no user carries it, anybody
    can register it and log in, and the model views of the admin panel then
    run for that caller. *)
Theorem admin_name_is_open_to_registration :
  forall (gph : nat -> string -> string) (cph : string -> string -> bool)
         (w : World) (p : string) (action : M Response),
    (forall n pw, cph (gph n pw) pw = true) ->
    (forall usr, In usr (users (db w)) -> User.username usr <> "admin") ->
    let w1 := snd (serve (register gph (credentials "admin" p)) w) in
    let w2 := snd (serve (login cph (credentials "admin" p)) w1) in
    IsAdmin w2 /\
    serve (MyModelView.exposed action) w2 = serve action w2.
Proof.
  intros gph cph w p action Hround Hfree w1 w2.
  assert (Hadm : IsAdmin w2).
  { destruct (register_then_login_run gph cph w "admin" p Hround Hfree)
      as [_ Hcur].
    eexists. split; [exact Hcur | reflexivity]. }
  split; [exact Hadm | now apply exposed_runs_for_admin].
Qed.

(** ** Forms with a field missing *)

(** X6.  A POST to register or to login whose form lacks the username or
    the password is answered with 400 and changes nothing: no user is
    stored, no session opened, no message flashed. *)
Theorem missing_credentials_are_bad_requests :
  forall (gph : nat -> string -> string) (cph : string -> string -> bool)
         (r : Request) (w : World),
    method r = POST ->
    form_get (form r) "username" = None \/
    form_get (form r) "password" = None ->
    serve (register gph r) w = (ErrorPage 400, w) /\
    serve (login cph r) w = (ErrorPage 400, w).
Proof.
  intros gph cph r w Hm Hmiss. unfold register, login. rewrite Hm. run_view.
  destruct (form_get (form r) "username") as [u|]; cbn;
    [|destruct w; split; reflexivity].
  destruct Hmiss as [Hmiss | Hmiss]; [discriminate Hmiss|].
  rewrite Hmiss. cbn. destruct w; split; reflexivity.
Qed.

(** X7.  A booking request of a logged-in user for an existing flight whose
    form lacks one of the three fields is answered with 400, and no booking
    is stored. *)
Theorem book_flight_missing_field_is_bad_request :
  forall (r : Request) (fid : Z) (w : World) (A : User.t) (f : Flight.t),
    current_user w = Some A ->
    flight_get (db w) fid = Some f ->
    form_get (form r) "full_name" = None \/
    form_get (form r) "email" = None \/
    form_get (form r) "phone" = None ->
    serve (book_flight r fid) w = (ErrorPage 400, w).
Proof.
  intros r fid w A f Hu Hf Hmiss. unfold book_flight.
  rewrite (login_required_authenticated _ w A Hu). run_view. rewrite Hf. cbn.
  destruct (form_get (form r) "full_name") as [fn|]; cbn;
    [|destruct w; reflexivity].
  destruct (form_get (form r) "email") as [em|]; cbn;
    [|destruct w; reflexivity].
  destruct (form_get (form r) "phone") as [ph|]; cbn;
    [|destruct w; reflexivity].
  destruct Hmiss as [H | [H | H]]; discriminate H.
Qed.

(** ** The flight page *)

Lemma flight_details_missing fid w :
  flight_get (db w) fid = None ->
  serve (flight_details fid) w =
  (ErrorPage (if fits_sqlite_integer fid then 404 else 500), w).
Proof.
  intros Hf. unfold flight_details. run_view. rewrite Hf.
  destruct (fits_sqlite_integer fid); destruct w; reflexivity.
Qed.

Lemma flight_details_found fid w f :
  flight_get (db w) fid = Some f ->
  exists h m,
    serve (flight_details fid) w =
    (RenderTemplate "flight_details.html" (CtxFlightDetails f h m), w).
Proof.
  intros Hf. unfold flight_details. run_view. rewrite Hf. cbn.
  eexists. eexists. destruct w; reflexivity.
Qed.

(** X8.  The flight page never changes the world.  It answers 404 exactly
    when no stored flight carries the id and the id is a 64-bit integer,
    and 500 exactly when no stored flight carries the id and the id is
    not. *)
Theorem flight_details_reads_only :
  forall (fid : Z) (w : World),
    let unknown := forall f, In f (flights (db w)) -> Flight.id f <> fid in
    snd (serve (flight_details fid) w) = w /\
    (fst (serve (flight_details fid) w) = ErrorPage 404 <->
     unknown /\ SQLITE_MIN <= fid <= SQLITE_MAX) /\
    (fst (serve (flight_details fid) w) = ErrorPage 500 <->
     unknown /\ (fid < SQLITE_MIN \/ SQLITE_MAX < fid)).
Proof.
  intros fid w unknown. subst unknown.
  rewrite <- flight_get_None, <- fits_sqlite_integer_true,
    <- fits_sqlite_integer_false.
  destruct (flight_get (db w) fid) as [f|] eqn:Hf.
  - destruct (flight_details_found fid w f Hf) as (h & m & Hrun).
    rewrite Hrun. cbn [fst snd].
    repeat split; try discriminate; intros [H _]; discriminate H.
  - rewrite (flight_details_missing fid w Hf). cbn [fst snd].
    destruct (fits_sqlite_integer fid); repeat split;
      try discriminate; try reflexivity; intros [_ H]; discriminate H.
Qed.

(** X9.  For an existing flight, the hours and minutes shown add up to the
    whole minutes between departure and arrival, rounded down. *)
Theorem flight_details_whole_minutes :
  forall (w : World) (fid : Z) (f : Flight.t),
    flight_get (db w) fid = Some f ->
    let total := total_seconds_sub (Flight.arrival_datetime f)
                                   (Flight.departure_datetime f) in
    exists h m : Z,
      fst (serve (flight_details fid) w) =
      RenderTemplate "flight_details.html" (CtxFlightDetails f h m) /\
      60 * h + m = total / 60.
Proof.
  intros w fid f Hf total.
  exists (total / 3600), ((total mod 3600) / 60). split.
  - unfold flight_details. run_view. rewrite Hf. reflexivity.
  - pose proof (Z.div_mod total 3600 ltac:(lia)) as Hdm.
    rewrite Hdm at 3.
    replace (3600 * (total / 3600) + total mod 3600)
      with (total mod 3600 + (total / 3600 * 60) * 60) by lia.
    rewrite Z.div_add by lia. lia.
Qed.

(** ** Booking twice *)

(** X10.  Nothing keeps a user from booking one flight twice: the same
    valid request served twice stores two bookings of that user for that
    flight, with consecutive ids and the contact fields as they were sent,
    after the bookings already stored. *)
Theorem same_flight_can_be_booked_twice :
  forall (r : Request) (fid : Z) (w : World) (A : User.t) (f : Flight.t)
         (fn em ph : string),
    current_user w = Some A ->
    flight_get (db w) fid = Some f ->
    form_get (form r) "full_name" = Some fn ->
    form_get (form r) "email" = Some em ->
    form_get (form r) "phone" = Some ph ->
    fn <> "" -> em <> "" -> ph <> "" ->
    let w1 := snd (serve (book_flight r fid) w) in
    let w2 := snd (serve (book_flight r fid) w1) in
    let n := next_id (map Booking.id (bookings (db w))) in
    bookings (db w2) =
    (bookings (db w) ++
       [Booking.mk n fid (User.id A) fn em ph;
        Booking.mk (n + 1) fid (User.id A) fn em ph])%list.
Proof.
  intros r fid w A f fn em ph Hu Hf Hfn Hem Hph Nfn Nem Nph w1 w2 n.
  assert (Hfilled : str_is_empty fn || str_is_empty em || str_is_empty ph
                    = false).
  { destruct fn; [contradiction|]. destruct em; [contradiction|].
    destruct ph; [contradiction|]. reflexivity. }
  destruct (flight_get_Some _ _ _ Hf) as [_ Hid].
  assert (Hw1 : w1 = world_after_booking w
                       (new_booking w (Flight.id f) (User.id A) fn em ph)).
  { unfold w1. rewrite (book_flight_run r fid w A f fn em ph Hu Hf Hfn Hem Hph).
    now rewrite Hfilled. }
  unfold w2.
  rewrite (book_flight_run r fid w1 A f fn em ph);
    try assumption; [| rewrite Hw1; exact Hu | rewrite Hw1; exact Hf].
  rewrite Hfilled. cbn [snd]. rewrite Hw1.
  unfold world_after_booking, new_booking.
  cbn [db bookings users flights login_session flashes rng].
  rewrite map_app. cbn [map Booking.id].
  rewrite next_id_snoc, <- app_assoc, Hid. reflexivity.
Qed.

(** ** File names, continued *)

Lemma lower_ascii_idempotent c : lower_ascii (lower_ascii c) = lower_ascii c.
Proof.
  destruct c as [[] [] [] [] [] [] [] []]; reflexivity.
Qed.

Lemma lower_ascii_dot c : Ascii.eqb (lower_ascii c) "." = Ascii.eqb c ".".
Proof.
  destruct c as [[] [] [] [] [] [] [] []]; reflexivity.
Qed.

Lemma lower_idempotent s : lower (lower s) = lower s.
Proof.
  induction s as [|c s IH]; cbn; [reflexivity|].
  now rewrite lower_ascii_idempotent, IH.
Qed.

Lemma contains_dot_lower s : contains_dot (lower s) = contains_dot s.
Proof.
  induction s as [|c s IH]; cbn; [reflexivity|].
  now rewrite lower_ascii_dot, IH.
Qed.

Lemma split_last_dot_lower s :
  split_last_dot (lower s) =
  match split_last_dot s with
  | Some (a, b) => Some (lower a, lower b)
  | None => None
  end.
Proof.
  induction s as [|c s IH]; cbn; [reflexivity|].
  rewrite IH, lower_ascii_dot.
  destruct (split_last_dot s) as [[a b]|]; [reflexivity|].
  destruct (Ascii.eqb c "."); reflexivity.
Qed.

(** X11.  [allowed_file] does not look at the case of the letters: a name
    and the same name in lower case get the same answer. *)
Theorem allowed_file_ignores_case :
  forall filename : string,
    allowed_file (lower filename) = allowed_file filename.
Proof.
  intros s. unfold allowed_file, rsplit_dot.
  rewrite contains_dot_lower, split_last_dot_lower.
  destruct (split_last_dot s) as [[a b]|]; cbn [nth_error].
  - now rewrite lower_idempotent.
  - reflexivity.
Qed.

(** X12.  Only what follows the last dot counts for [allowed_file]: a name
    without a dot is refused, and a name with one is accepted exactly when
    the part after its last dot is png, jpg or jpeg in lower case, whatever
    stands before that dot, other extensions included. *)
Theorem allowed_file_last_extension_decides :
  forall stem ext : string,
    contains_dot ext = false ->
    allowed_file ext = false /\
    (allowed_file (stem ++ String "." ext) = true <->
     lower ext = "png" \/ lower ext = "jpg" \/ lower ext = "jpeg").
Proof.
  intros stem ext Hext. split.
  - unfold allowed_file. now rewrite Hext.
  - rewrite allowed_file_iff. split.
    + intros (stem' & ext' & Hname & Hext' & Hin).
      assert (E : Some (stem, ext) = Some (stem', ext')).
      { rewrite <- (split_last_dot_complete stem ext Hext).
        rewrite Hname. now apply split_last_dot_complete. }
      injection E as _ <-.
      destruct Hin as [H | [H | [H | []]]]; auto.
    + intros H. exists stem, ext. repeat split; [exact Hext|].
      destruct H as [H | [H | H]]; rewrite H; cbn; auto.
Qed.

(** ** What a request can do to the tables and to the session *)

Lemma index_db w :
  db (snd (serve index w)) = db w \/
  (flights (db w) = [] /\
   db (snd (serve index w)) = fold_left insert_row default_flights (db w)).
Proof.
  destruct w as [[us fl bk] ls fs rg]. destruct fl as [|f fl].
  - right. split; reflexivity.
  - left. reflexivity.
Qed.

Lemma register_db gph r w :
  db (snd (serve (register gph r) w)) = db w \/
  (method r = POST /\
   exists name h,
     user_by_username (db w) name = None /\
     db (snd (serve (register gph r) w)) = insert_row (db w) (NewUser name h)).
Proof.
  unfold register. destruct (method r) eqn:Hm; [left; reflexivity|].
  run_view.
  destruct (form_get (form r) "username") as [u|]; cbn; [|left; reflexivity].
  destruct (form_get (form r) "password") as [p|]; cbn; [|left; reflexivity].
  destruct (user_by_username (db w) u) as [usr|] eqn:E; cbn;
    [left; reflexivity|].
  right. split; [reflexivity|]. exists u, (gph (rng w) p). split; [exact E|].
  reflexivity.
Qed.

Lemma login_db cph r w : db (snd (serve (login cph r) w)) = db w.
Proof.
  unfold login. destruct (method r); [reflexivity|]. run_view.
  destruct (form_get (form r) "username") as [u|]; cbn; [|reflexivity].
  destruct (form_get (form r) "password") as [p|]; cbn; [|reflexivity].
  destruct (user_by_username (db w) u) as [usr|]; cbn; [|reflexivity].
  destruct (check_password cph usr p); reflexivity.
Qed.

Lemma flight_details_world fid w : snd (serve (flight_details fid) w) = w.
Proof.
  destruct (flight_get (db w) fid) as [f|] eqn:Hf.
  - destruct (flight_details_found fid w f Hf) as (h & m & Hrun).
    now rewrite Hrun.
  - now rewrite (flight_details_missing fid w Hf).
Qed.

Lemma flight_details_db fid w : db (snd (serve (flight_details fid) w)) = db w.
Proof.
  now rewrite flight_details_world.
Qed.

Lemma book_flight_db r fid w :
  db (snd (serve (book_flight r fid) w)) = db w \/
  exists A f fn em ph,
    current_user w = Some A /\
    flight_get (db w) fid = Some f /\
    db (snd (serve (book_flight r fid) w)) =
    insert_row (db w) (NewBooking (Flight.id f) (User.id A) fn em ph).
Proof.
  destruct (current_user w) as [A|] eqn:Hu.
  - unfold book_flight. rewrite (login_required_authenticated _ w A Hu).
    run_view.
    destruct (flight_get (db w) fid) as [f|] eqn:Hf; cbn;
      [|destruct (fits_sqlite_integer fid); left; reflexivity].
    destruct (form_get (form r) "full_name") as [fn|]; cbn;
      [|left; reflexivity].
    destruct (form_get (form r) "email") as [em|]; cbn; [|left; reflexivity].
    destruct (form_get (form r) "phone") as [ph|]; cbn; [|left; reflexivity].
    destruct (str_is_empty fn || str_is_empty em || str_is_empty ph); cbn;
      [left; reflexivity|].
    rewrite Hu. cbn. right. exists A, f, fn, em, ph. repeat split.
  - left. unfold book_flight. now rewrite login_required_anonymous.
Qed.

Lemma login_required_db view w :
  (forall u, current_user w = Some u -> db (snd (serve view w)) = db w) ->
  db (snd (serve (login_required view) w)) = db w.
Proof.
  intros H. destruct (current_user w) as [u|] eqn:Hu.
  - rewrite (login_required_authenticated _ w u Hu). now apply H with (u := u).
  - now rewrite login_required_anonymous.
Qed.

Lemma logout_db w : db (snd (serve logout w)) = db w.
Proof.
  unfold logout. apply login_required_db. reflexivity.
Qed.

Lemma bookings_view_db w : db (snd (serve bookings_view w)) = db w.
Proof.
  unfold bookings_view. apply login_required_db. intros u Hu.
  run_view. rewrite Hu. reflexivity.
Qed.

Lemma admin_index_world w : snd (serve MyAdminIndexView.index w) = w.
Proof.
  unfold MyAdminIndexView.index, AdminIndexView.index. run_view.
  destruct (current_user w) as [u|]; cbn.
  - destruct (String.eqb (User.username u) "admin"); destruct w; reflexivity.
  - destruct w; reflexivity.
Qed.

Lemma IsAdmin_decidable w : IsAdmin w \/ ~ IsAdmin w.
Proof.
  unfold IsAdmin. destruct (current_user w) as [u|].
  - destruct (String.eqb_spec (User.username u) "admin") as [E|E].
    + left. now exists u.
    + right. intros (v & Hv & Hname). injection Hv as <-. contradiction.
  - right. intros (v & Hv & _). discriminate Hv.
Qed.

Lemma exposed_refuses_non_admin action w :
  ~ IsAdmin w ->
  serve (MyModelView.exposed action) w = (Redirect "login" None, w).
Proof.
  intros Hn.
  unfold MyModelView.exposed, MyModelView.is_accessible,
    MyModelView.inaccessible_callback. run_view.
  destruct (not_admin_cases w Hn) as [Hu | [u [Hu Hname]]];
    rewrite Hu; cbn; rewrite ?Hname; destruct w; reflexivity.
Qed.

Lemma model_view_world (mvm : string -> option (list Method))
    (mva : AdminModel -> string -> Request -> M Response) model view r w :
  ~ IsAdmin w ->
  snd (serve
         match mvm view with
         | None => ret (ErrorPage 404)
         | Some methods =>
             if existsb (method_eqb (method r)) methods
             then MyModelView.exposed (mva model view r)
             else ret (ErrorPage 405)
         end w) = w.
Proof.
  intros Hn. destruct (mvm view) as [methods|]; [|reflexivity].
  destruct (existsb (method_eqb (method r)) methods); [|reflexivity].
  now rewrite exposed_refuses_non_admin.
Qed.

Lemma route_model_view_world gph cph mvm mva u r w :
  is_model_view u = true -> ~ IsAdmin w ->
  snd (serve (route gph cph mvm mva u r) w) = w.
Proof.
  intros Hmv Hn. destruct u; try discriminate Hmv.
  unfold route. destruct (method r) eqn:Hm;
    rewrite <- Hm; now apply model_view_world.
Qed.

Lemma route_db_cases gph cph mvm mva u r w :
  let d' := db (snd (serve (route gph cph mvm mva u r) w)) in
  d' = db w \/
  (u = UrlRegister /\ method r = POST /\
   exists name h,
     user_by_username (db w) name = None /\
     d' = insert_row (db w) (NewUser name h)) \/
  (u = UrlIndex /\ method r = GET /\ flights (db w) = [] /\
   d' = fold_left insert_row default_flights (db w)) \/
  (exists fid A f fn em ph,
     u = UrlBookFlight fid /\ method r = POST /\
     current_user w = Some A /\ flight_get (db w) fid = Some f /\
     d' = insert_row (db w) (NewBooking (Flight.id f) (User.id A) fn em ph)) \/
  (is_model_view u = true /\ IsAdmin w).
Proof.
  destruct (is_model_view u) eqn:Hmv.
  - destruct (IsAdmin_decidable w) as [Ha | Hn].
    + right. right. right. right. now split.
    + left. cbv zeta. now rewrite route_model_view_world.
  - unfold route.
    destruct u; try discriminate Hmv; destruct (method r) eqn:Hm; cbv zeta;
      try (left; reflexivity).
    + destruct (index_db w) as [H | [Hfl H]]; [now left|].
      right. right. left. repeat split; assumption.
    + destruct (register_db gph r w) as [H | [Hpost _]]; [now left|].
      rewrite Hm in Hpost. discriminate Hpost.
    + destruct (register_db gph r w) as [H | [_ H]]; [now left|].
      right. left. repeat split; assumption.
    + left. apply login_db.
    + left. apply login_db.
    + left. apply logout_db.
    + left. apply flight_details_db.
    + destruct (book_flight_db r flight_id w)
        as [H | (A & f & fn & em & ph & Hu & Hf & H)]; [now left|].
      right. right. right. left. exists flight_id, A, f, fn, em, ph.
      repeat split; assumption.
    + left. apply bookings_view_db.
    + left. now rewrite admin_index_world.
Qed.

Lemma current_user_In w u : current_user w = Some u -> In u (users (db w)).
Proof.
  unfold current_user, load_user, user_get.
  destruct (login_session w) as [uid|]; [|discriminate].
  intros H. now apply find_some in H.
Qed.

Lemma route_db_step gph cph mvm mva u r w :
  (is_model_view u = true -> ~ IsAdmin w) ->
  DbStep (db w) (db (snd (serve (route gph cph mvm mva u r) w))).
Proof.
  intros Hguard.
  destruct (route_db_cases gph cph mvm mva u r w)
    as [H | [(_ & _ & name & h & Hfree & H)
       | [(_ & _ & Hempty & H)
       | [(fid & A & f & fn & em & ph & _ & _ & Hu & Hf & H)
       | (Hmv & Ha)]]]];
    try rewrite H.
  - constructor.
  - now constructor.
  - now constructor.
  - constructor.
    + exact (proj1 (flight_get_Some _ _ _ Hf)).
    + now apply current_user_In.
  - exfalso. exact (Hguard Hmv Ha).
Qed.

Lemma NoDup_snoc {A} (l : list A) (x : A) :
  NoDup l -> ~ In x l -> NoDup (l ++ [x]).
Proof.
  intros Hnd Hx. apply NoDup_app; [exact Hnd | repeat constructor; intros [] |].
  intros a Hin [<- | []]. exact (Hx Hin).
Qed.

Lemma db_step_well_formed d d' : DbStep d d' -> WellFormed d -> WellFormed d'.
Proof.
  intros Hstep [Hnames Huids Hfids Hbids Hrefs].
  destruct Hstep as [| name h Hfree | Hempty | f u fn em ph Hf Hu].
  - now constructor.
  - constructor; cbn; try assumption.
    + rewrite map_app. apply NoDup_snoc; [exact Hnames|]. cbn.
      intros Hin. apply in_map_iff in Hin. destruct Hin as (x & Hx & Hin).
      exact (proj1 (user_by_username_None _ _) Hfree x Hin Hx).
    + rewrite map_app. apply NoDup_snoc; [exact Huids | apply next_id_fresh].
    + intros b Hb. destruct (Hrefs b Hb) as [(x & Hx & Hxid) Hflight].
      split; [|exact Hflight].
      exists x. split; [apply in_or_app; now left | exact Hxid].
  - destruct d as [us fl bk]. cbn in Hempty. subst fl.
    constructor; cbn; try assumption.
    + repeat constructor; cbn; intuition discriminate.
    + intros b Hb. destruct (Hrefs b Hb) as [_ (x & [] & _)].
  - constructor; cbn; try assumption.
    + rewrite map_app. apply NoDup_snoc; [exact Hbids | apply next_id_fresh].
    + intros b Hb. apply in_app_or in Hb. destruct Hb as [Hb | [<- | []]].
      * exact (Hrefs b Hb).
      * cbn. split; [now exists u | now exists f].
Qed.

Lemma db_step_grows d d' :
  DbStep d d' ->
  exists us fs bs,
    users d' = (users d ++ us)%list /\
    flights d' = (flights d ++ fs)%list /\
    bookings d' = (bookings d ++ bs)%list.
Proof.
  intros [| name h _ | Hempty | f u fn em ph _ _].
  - exists [], [], []. now rewrite !app_nil_r.
  - exists [User.mk (next_id (map User.id (users d))) name h], [], [].
    cbn. now rewrite !app_nil_r.
  - destruct d as [us fl bk]. cbn in Hempty. subst fl.
    exists [], seeded_flights, []. cbn. now rewrite !app_nil_r.
  - exists [], [],
      [Booking.mk (next_id (map Booking.id (bookings d)))
                  (Flight.id f) (User.id u) fn em ph].
    cbn. now rewrite !app_nil_r.
Qed.

Lemma well_formed_empty : WellFormed (db empty_world).
Proof.
  constructor; cbn; try apply NoDup_nil. intros x [].
Qed.

Lemma run_well_formed gph cph mvm mva reqs w :
  model_views_without_admin gph cph mvm mva reqs w ->
  WellFormed (db w) ->
  WellFormed (db (run gph cph mvm mva reqs w)).
Proof.
  revert w. induction reqs as [|[u r] reqs IH]; intros w Hguard Hwf; cbn.
  - exact Hwf.
  - destruct Hguard as [Hhere Hrest]. apply IH; [exact Hrest|].
    exact (db_step_well_formed _ _
             (route_db_step gph cph mvm mva u r w Hhere) Hwf).
Qed.

(** X13.  Every request to a view of the application, a view of the admin
    panel's model views included when the caller is not logged in as admin,
    keeps the tables as the schema wants them: user names and the primary
    keys of the three tables stay unique, and every booking still names a
    stored user and a stored flight. *)
Theorem route_preserves_well_formed :
  forall (gph : nat -> string -> string) (cph : string -> string -> bool)
         (mvm : string -> option (list Method))
         (mva : AdminModel -> string -> Request -> M Response)
         (u : Url) (r : Request) (w : World),
    (is_model_view u = true -> ~ IsAdmin w) ->
    WellFormed (db w) ->
    WellFormed (db (snd (serve (route gph cph mvm mva u r) w))).
Proof.
  intros gph cph mvm mva u r w Hguard Hwf.
  exact (db_step_well_formed _ _
           (route_db_step gph cph mvm mva u r w Hguard) Hwf).
Qed.

(** X14.  Started on empty tables, the application never reaches tables
    with a duplicate user name, a duplicate primary key or a booking that
    names a missing user or flight, whatever requests it serves, as long as
    the model views of the admin panel are only requested by callers who are
    not logged in as admin. *)
Theorem reachable_tables_are_well_formed :
  forall (gph : nat -> string -> string) (cph : string -> string -> bool)
         (mvm : string -> option (list Method))
         (mva : AdminModel -> string -> Request -> M Response)
         (reqs : list (Url * Request)),
    model_views_without_admin gph cph mvm mva reqs empty_world ->
    WellFormed (db (run gph cph mvm mva reqs empty_world)).
Proof.
  intros gph cph mvm mva reqs Hguard.
  apply run_well_formed; [exact Hguard | exact well_formed_empty].
Qed.

(** X15.  Rows are removed or altered by the admin alone: a sequence of
    requests in which the model views of the admin panel are only requested
    by callers who are not logged in as admin leaves each table as it was,
    followed by the rows added. *)
Theorem tables_only_grow :
  forall (gph : nat -> string -> string) (cph : string -> string -> bool)
         (mvm : string -> option (list Method))
         (mva : AdminModel -> string -> Request -> M Response)
         (reqs : list (Url * Request)) (w : World),
    model_views_without_admin gph cph mvm mva reqs w ->
    exists us fs bs,
      users (db (run gph cph mvm mva reqs w)) = (users (db w) ++ us)%list /\
      flights (db (run gph cph mvm mva reqs w)) = (flights (db w) ++ fs)%list /\
      bookings (db (run gph cph mvm mva reqs w)) =
      (bookings (db w) ++ bs)%list.
Proof.
  intros gph cph mvm mva reqs.
  induction reqs as [|[u r] reqs IH]; intros w Hguard; cbn.
  - exists [], [], []. now rewrite !app_nil_r.
  - destruct Hguard as [Hhere Hrest].
    destruct (db_step_grows _ _ (route_db_step gph cph mvm mva u r w Hhere))
      as (us & fs & bs & Hu & Hf & Hb).
    destruct (IH (snd (serve (route gph cph mvm mva u r) w)) Hrest)
      as (us' & fs' & bs' & Hu' & Hf' & Hb').
    exists (us ++ us')%list, (fs ++ fs')%list, (bs ++ bs')%list.
    rewrite Hu', Hf', Hb', Hu, Hf, Hb, !app_assoc. repeat split.
Qed.











(** * The further properties at work on the demonstration worlds *)

Lemma demo_hash_round_trip :
  forall n pw,
    demo_check_password_hash (demo_generate_password_hash n pw) pw = true.
Proof.
  intros n pw. cbn. apply String.eqb_refl.
Defined.

Lemma demo_db_well_formed : WellFormed demo_db.
Proof.
  constructor; cbn.
  - repeat constructor; cbn; intuition discriminate.
  - repeat constructor; cbn; intuition discriminate.
  - repeat constructor; cbn; intuition discriminate.
  - constructor.
  - intros b [].
Defined.

Lemma protected_views_refuse_anonymous_witness :
  serve (book_flight (mkRequest POST demo_booking_form) 1) demo_stale_world =
  (Redirect "login" None, world_flashed demo_stale_world LOGIN_MESSAGE) /\
  serve bookings_view demo_anonymous_world =
  (Redirect "login" None, world_flashed demo_anonymous_world LOGIN_MESSAGE).
Proof.
  split.
  - exact (proj1 (protected_views_refuse_anonymous
                    (mkRequest POST demo_booking_form) 1 demo_stale_world
                    eq_refl)).
  - exact (proj1 (proj2 (protected_views_refuse_anonymous
                           (mkRequest GET []) 1 demo_anonymous_world
                           eq_refl))).
Defined.

Lemma logout_ends_the_session_witness :
  serve logout demo_world = (Redirect "index" None, demo_anonymous_world).
Proof.
  exact (proj1 (logout_ends_the_session demo_world demo_alice eq_refl)).
Defined.

Lemma login_sets_current_user_witness :
  current_user
    (snd (serve (login demo_check_password_hash (credentials "alice" "pw1"))
                demo_anonymous_world)) = Some demo_alice.
Proof.
  apply (login_sets_current_user demo_check_password_hash
           (credentials "alice" "pw1") demo_anonymous_world "alice" "pw1"
           demo_alice eq_refl eq_refl eq_refl);
    [exact (wf_user_ids _ demo_db_well_formed) | reflexivity | reflexivity].
Defined.

Lemma register_then_login_succeeds_witness :
  let w1 := snd (serve (register demo_generate_password_hash
                                 (credentials "bob" "pw2")) demo_world) in
  fst (serve (login demo_check_password_hash (credentials "bob" "pw2")) w1) =
  Redirect "index" None.
Proof.
  apply (register_then_login_succeeds
           demo_generate_password_hash demo_check_password_hash
           demo_world "bob" "pw2" demo_hash_round_trip).
  intros usr [<- | [<- | []]]; discriminate.
Defined.

Lemma admin_name_is_open_to_registration_witness :
  let w1 := snd (serve (register demo_generate_password_hash
                                 (credentials "admin" "mine")) empty_world) in
  let w2 := snd (serve (login demo_check_password_hash
                              (credentials "admin" "mine")) w1) in
  IsAdmin w2 /\
  serve (MyModelView.exposed demo_delete_flights) w2 =
  serve demo_delete_flights w2.
Proof.
  apply (admin_name_is_open_to_registration
           demo_generate_password_hash demo_check_password_hash
           empty_world "mine" demo_delete_flights demo_hash_round_trip).
  intros usr [].
Defined.

Lemma missing_credentials_are_bad_requests_witness :
  serve (register demo_generate_password_hash
                  (mkRequest POST [("username", "bob")])) demo_world =
  (ErrorPage 400, demo_world) /\
  serve (login demo_check_password_hash (mkRequest POST [])) demo_world =
  (ErrorPage 400, demo_world).
Proof.
  split.
  - exact (proj1 (missing_credentials_are_bad_requests
                    demo_generate_password_hash demo_check_password_hash
                    (mkRequest POST [("username", "bob")]) demo_world
                    eq_refl (or_intror eq_refl))).
  - exact (proj2 (missing_credentials_are_bad_requests
                    demo_generate_password_hash demo_check_password_hash
                    (mkRequest POST []) demo_world
                    eq_refl (or_introl eq_refl))).
Defined.

Lemma book_flight_missing_field_is_bad_request_witness :
  serve (book_flight
           (mkRequest POST [("full_name", "Alice A"); ("email", "a@x.com")]) 1)
        demo_world = (ErrorPage 400, demo_world).
Proof.
  exact (book_flight_missing_field_is_bad_request
           (mkRequest POST [("full_name", "Alice A"); ("email", "a@x.com")])
           1 demo_world demo_alice seeded_flight_1 eq_refl eq_refl
           (or_intror (or_intror eq_refl))).
Defined.

Lemma flight_details_whole_minutes_witness :
  exists h m : Z,
    fst (serve (flight_details 2) demo_world) =
    RenderTemplate "flight_details.html" (CtxFlightDetails seeded_flight_2 h m) /\
    60 * h + m = 210.
Proof.
  exact (flight_details_whole_minutes demo_world 2 seeded_flight_2 eq_refl).
Defined.

Lemma same_flight_can_be_booked_twice_witness :
  let r := mkRequest POST demo_booking_form in
  bookings (db (snd (serve (book_flight r 1)
                           (snd (serve (book_flight r 1) demo_world))))) =
  [Booking.mk 1 1 1 "Alice A" "a@x.com" "123";
   Booking.mk 2 1 1 "Alice A" "a@x.com" "123"].
Proof.
  apply (same_flight_can_be_booked_twice
           (mkRequest POST demo_booking_form) 1 demo_world demo_alice
           seeded_flight_1 "Alice A" "a@x.com" "123"
           eq_refl eq_refl eq_refl eq_refl eq_refl); discriminate.
Defined.

Lemma allowed_file_last_extension_decides_witness :
  allowed_file "shell.exe.PNG" = true /\ allowed_file "PNG" = false.
Proof.
  destruct (allowed_file_last_extension_decides "shell.exe" "PNG" eq_refl)
    as [Hbare Hdotted].
  split; [|exact Hbare].
  apply Hdotted. left. reflexivity.
Defined.

Lemma demo_alice_is_not_admin : ~ IsAdmin demo_world.
Proof.
  intros [u [Hu Hname]]. vm_compute in Hu. injection Hu as <-.
  discriminate Hname.
Defined.

Lemma demo_requests_without_admin :
  model_views_without_admin
    demo_generate_password_hash demo_check_password_hash
    demo_model_view_methods demo_model_view_action demo_requests empty_world.
Proof.
  cbn [model_views_without_admin demo_requests is_model_view].
  repeat split; try discriminate.
  intros _ [u [Hu Hname]]. vm_compute in Hu. injection Hu as <-.
  discriminate Hname.
Defined.

Lemma route_preserves_well_formed_witness :
  let w' := snd (serve (demo_route (UrlModelView AdminFlight "delete_view")
                                   (mkRequest POST [])) demo_world) in
  WellFormed (db w') /\ flights (db w') = seeded_flights.
Proof.
  split; [|reflexivity].
  exact (route_preserves_well_formed
           demo_generate_password_hash demo_check_password_hash
           demo_model_view_methods demo_model_view_action
           (UrlModelView AdminFlight "delete_view") (mkRequest POST [])
           demo_world (fun _ => demo_alice_is_not_admin) demo_db_well_formed).
Defined.

Lemma reachable_tables_are_well_formed_witness :
  WellFormed
    (db (run demo_generate_password_hash demo_check_password_hash
             demo_model_view_methods demo_model_view_action
             demo_requests empty_world)).
Proof.
  exact (reachable_tables_are_well_formed
           demo_generate_password_hash demo_check_password_hash
           demo_model_view_methods demo_model_view_action
           demo_requests demo_requests_without_admin).
Defined.

Lemma tables_only_grow_witness :
  let d := db (run demo_generate_password_hash demo_check_password_hash
                   demo_model_view_methods demo_model_view_action
                   demo_requests empty_world) in
  flights d = seeded_flights /\
  exists us fs bs, users d = us /\ flights d = fs /\ bookings d = bs.
Proof.
  split; [reflexivity|].
  destruct (tables_only_grow
              demo_generate_password_hash demo_check_password_hash
              demo_model_view_methods demo_model_view_action
              demo_requests empty_world demo_requests_without_admin)
    as (us & fs & bs & Hu & Hf & Hb).
  exists us, fs, bs. split; [exact Hu | split; [exact Hf | exact Hb]].
Defined.


